(** * ALICE Legal AI: console, API client, storage schema and engine contract

    A shallow embedding of the repository's TypeScript front end
    (the legal console page, [lib/api/client.ts], [lib/hooks/use-store.ts]),
    of the relational schema [006_domain.sql], and of the analysis and
    template engine behind the HTTP interface.  The engine itself is a
    separate service whose code is not part of these sources; its operations
    are modelled from the written contract and every such definition says so.

    Layout: part I holds the definitions, part II the lemmas and theorems. *)

From Stdlib Require Import ZArith NArith QArith Qminmax Qabs List String Ascii Floats Lia Bool.
From Stdlib Require Import DecimalString.
From stdpp Require Import base option list sorting gmap.

Set Warnings "-inexact-float,-register-all".

(* ===================================================================== *)
(** * Part I: definitions                                                 *)
(* ===================================================================== *)

(** ** JavaScript values *)

(** A JavaScript string is a sequence of UTF-16 code units.  [js] turns an
    ASCII literal into one. *)
Definition str : Type := list N.

Definition js (s : string) : str := map N_of_ascii (list_ascii_of_string s).

(** [String(n)] for a non-negative integer: its decimal digits. *)
Definition decimal (n : N) : str := js (NilZero.string_of_uint (N.to_uint n)).

(** ECMAScript WhiteSpace and LineTerminator code points, the ones
    [String.prototype.trim] removes. *)
Definition is_white_space (c : N) : bool :=
  ((9 <=? c) && (c <=? 13))%N
  || (c =? 32)%N || (c =? 160)%N || (c =? 5760)%N
  || ((8192 <=? c) && (c <=? 8202))%N
  || (c =? 8232)%N || (c =? 8233)%N || (c =? 8239)%N || (c =? 8287)%N
  || (c =? 12288)%N || (c =? 65279)%N.

Fixpoint trimStart (s : str) : str :=
  match s with
  | c :: rest => if is_white_space c then trimStart rest else s
  | [] => []
  end.

Definition trimEnd (s : str) : str := rev (trimStart (rev s)).

Definition trim (s : str) : str := trimEnd (trimStart s).

(** Truthiness of a string: only the empty string is falsy. *)
Definition truthy (s : str) : bool :=
  match s with [] => false | _ :: _ => true end.

(** Parsed JSON, the [any] that [res.json()] resolves to. *)
Inductive JsValue : Type :=
  | JNull
  | JBool (b : bool)
  | JNumber (x : float)
  | JString (s : str)
  | JArray (items : list JsValue)
  | JObject (fields : list (str * JsValue)).

(** A thrown value: an [Error] instance with its message, or anything else. *)
Inductive Thrown : Type :=
  | ErrorObject (message : str)
  | NotAnError (v : JsValue).

(** How an awaited promise settles. *)
Inductive Completion (A : Type) : Type :=
  | Fulfilled (a : A)
  | Rejected (e : Thrown).
Arguments Fulfilled {A} a.
Arguments Rejected {A} e.

(** ** The risk levels *)

Inductive RiskLevel : Set := low | medium | high | critical.

Definition RiskLevel_name (l : RiskLevel) : str :=
  match l with
  | low => js "low" | medium => js "medium" | high => js "high" | critical => js "critical"
  end.

(** [x >= y] on IEEE doubles. *)
Definition geb (x y : float) : bool := PrimFloat.leb y x.
Notation "x >=? y" := (geb x y) (at level 70) : float_scope.

(* --------------------------------------------------------------------- *)
(** ** [lib/api/client.ts]: the HTTP helper and the client                *)
(* --------------------------------------------------------------------- *)

Module Client.

Inductive Method : Set := GET | POST.

(** What [fetch] is called with.  The body is kept as the value that
    [JSON.stringify] receives; [None] is [undefined]. *)
Record FetchCall : Type := {
  url : str;
  method : Method;
  headers : list (str * str);
  body : option JsValue
}.

(** A [Response]: its [ok], [status] and [statusText] fields and what its
    [text()] and [json()] promises settle to. *)
Record Response : Type := {
  ok : bool;
  status : N;
  statusText : str;
  text : Completion str;
  json : Completion JsValue
}.

(** The network as the client sees it: what [fetch] settles to on a call. *)
Definition Network : Type := FetchCall -> Completion Response.

Section WithBaseUrl.

(** [process.env.NEXT_PUBLIC_LEGAL_API_URL ?? "http://localhost:8081"] *)
Variable BASE_URL : str.

Definition fetch_call (m : Method) (path : str) (b : option JsValue) : FetchCall :=
  {| url := BASE_URL ++ path;
     method := m;
     headers := [(js "Content-Type", js "application/json")];
     body := b |}.

(** [`${res.status} ${res.statusText}${text ? `: ${text}` : ""}`] with
    [text = await res.text().catch(() => "")]. *)
Definition error_message (res : Response) : str :=
  let text := match text res with Fulfilled t => t | Rejected _ => [] end in
  decimal (status res) ++ js " " ++ statusText res
    ++ (if truthy text then js ": " ++ text else []).

(** The part of [request] that runs once [fetch] has produced a response. *)
Definition handle_response (res : Response) : Completion JsValue :=
  if negb (ok res) then Rejected (ErrorObject (error_message res))
  else json res.

(** [request] settles to a value or a thrown one; the second component
    lists the [fetch] calls it made. *)
Definition request (net : Network) (m : Method) (path : str) (b : option JsValue)
  : Completion JsValue * list FetchCall :=
  let call := fetch_call m path b in
  (match net call with
   | Fulfilled res => handle_response res
   | Rejected e => Rejected e
   end, [call]).

(** Request objects as the values handed to [JSON.stringify]. *)
Definition AnalyzeRequest (document language : str) : JsValue :=
  JObject [(js "document", JString document); (js "language", JString language)].

Definition CompileRequest (template_id : str) (variables : list (str * str)) : JsValue :=
  JObject [(js "template_id", JString template_id);
           (js "variables", JObject (map (fun kv => (fst kv, JString (snd kv))) variables))].

Definition RiskRequest (document : str) : JsValue :=
  JObject [(js "document", JString document)].

Definition analyze (net : Network) (document language : str) :=
  request net POST (js "/api/v1/legal/analyze") (Some (AnalyzeRequest document language)).

Definition compile (net : Network) (template_id : str) (variables : list (str * str)) :=
  request net POST (js "/api/v1/legal/compile") (Some (CompileRequest template_id variables)).

Definition templates (net : Network) :=
  request net GET (js "/api/v1/legal/templates") None.

Definition riskScore (net : Network) (document : str) :=
  request net POST (js "/api/v1/legal/risk-score") (Some (RiskRequest document)).

End WithBaseUrl.

End Client.

(* --------------------------------------------------------------------- *)
(** ** [lib/hooks/use-store.ts]: the console's store                      *)
(* --------------------------------------------------------------------- *)

Module Store.

Inductive ResultType : Set := type_analyze | type_compile | type_risk.

Record LegalResult : Type := { type : ResultType; data : JsValue }.

Record LegalState : Type := {
  document : str;
  language : str;
  templateId : str;
  result : option LegalResult;
  loading : bool
}.

Definition initialState : LegalState :=
  {| document := []; language := js "en"; templateId := [];
     result := None; loading := false |}.

Definition setDocument (d : str) (s : LegalState) : LegalState :=
  {| document := d; language := language s; templateId := templateId s;
     result := result s; loading := loading s |}.

Definition setLanguage (l : str) (s : LegalState) : LegalState :=
  {| document := document s; language := l; templateId := templateId s;
     result := result s; loading := loading s |}.

Definition setTemplateId (t : str) (s : LegalState) : LegalState :=
  {| document := document s; language := language s; templateId := t;
     result := result s; loading := loading s |}.

Definition setResult (r : option LegalResult) (s : LegalState) : LegalState :=
  {| document := document s; language := language s; templateId := templateId s;
     result := r; loading := loading s |}.

Definition setLoading (b : bool) (s : LegalState) : LegalState :=
  {| document := document s; language := language s; templateId := templateId s;
     result := result s; loading := b |}.

Definition reset (_ : LegalState) : LegalState := initialState.

End Store.

(* --------------------------------------------------------------------- *)
(** ** The legal console page                                             *)
(* --------------------------------------------------------------------- *)

Module Console.

Record SelectOption : Type := { value : str; label : str }.

Definition LANGUAGES : list SelectOption :=
  [ {| value := js "en"; label := js "English" |};
    {| value := js "ja"; label := js "Japanese" |};
    {| value := js "de"; label := js "German" |};
    {| value := js "fr"; label := js "French" |} ].

Definition TEMPLATES : list SelectOption :=
  [ {| value := js "nda"; label := js "Non-Disclosure Agreement (NDA)" |};
    {| value := js "sla"; label := js "Service Level Agreement (SLA)" |};
    {| value := js "dpa"; label := js "Data Processing Agreement (DPA)" |};
    {| value := js "tos"; label := js "Terms of Service (ToS)" |};
    {| value := js "privacy"; label := js "Privacy Policy" |};
    {| value := js "employment"; label := js "Employment Agreement" |};
    {| value := js "license"; label := js "Software License Agreement" |} ].

(** The [level] computed by [RiskBadge] from its [score] property. *)
Definition RiskBadge_level (score : float) : RiskLevel :=
  if (score >=? 0.7)%float then critical
  else if (score >=? 0.5)%float then high
  else if (score >=? 0.3)%float then medium
  else low.

(** [colors[level]] in [RiskBadge]. *)
Definition RiskBadge_colors (l : RiskLevel) : str :=
  match l with
  | critical => js "bg-red-500/20 text-red-400 border-red-500/40"
  | high => js "bg-orange-500/20 text-orange-400 border-orange-500/40"
  | medium => js "bg-yellow-500/20 text-yellow-400 border-yellow-500/40"
  | low => js "bg-green-500/20 text-green-400 border-green-500/40"
  end.

Inductive Tab : Set := tab_analyze | tab_compile.

(** The page's state: the shared store and the two [useState] cells. *)
Record Page : Type := {
  store : Store.LegalState;
  activeTab : Tab;
  error : option str
}.

Definition setLoading (b : bool) (p : Page) : Page :=
  {| store := Store.setLoading b (store p); activeTab := activeTab p; error := error p |}.

Definition setResult (r : option Store.LegalResult) (p : Page) : Page :=
  {| store := Store.setResult r (store p); activeTab := activeTab p; error := error p |}.

Definition setError (e : option str) (p : Page) : Page :=
  {| store := store p; activeTab := activeTab p; error := e |}.

Definition setActiveTab (t : Tab) (p : Page) : Page :=
  {| store := store p; activeTab := t; error := error p |}.

(** [e instanceof Error ? e.message : fallback] *)
Definition message_of (e : Thrown) (fallback : str) : str :=
  match e with
  | ErrorObject m => m
  | NotAnError _ => fallback
  end.

Section Handlers.

Variable BASE_URL : str.
Variable net : Client.Network.

(** Each handler maps the page it was rendered with to the page it leaves
    behind, together with the [fetch] calls it made. *)
Definition handleAnalyze (p : Page) : Page * list Client.FetchCall :=
  let document := Store.document (store p) in
  let language := Store.language (store p) in
  if negb (truthy (trim document)) then (p, [])
  else
    let p := setLoading true p in
    let p := setError None p in
    let '(outcome, calls) := Client.analyze BASE_URL net document language in
    let p :=
      match outcome with
      | Fulfilled res => setResult (Some {| Store.type := Store.type_analyze; Store.data := res |}) p
      | Rejected e => setError (Some (message_of e (js "Analysis failed."))) p
      end in
    (setLoading false p, calls).

Definition handleCompile (p : Page) : Page * list Client.FetchCall :=
  let templateId := Store.templateId (store p) in
  if negb (truthy templateId) then (p, [])
  else
    let p := setLoading true p in
    let p := setError None p in
    let '(outcome, calls) := Client.compile BASE_URL net templateId [] in
    let p :=
      match outcome with
      | Fulfilled res => setResult (Some {| Store.type := Store.type_compile; Store.data := res |}) p
      | Rejected e => setError (Some (message_of e (js "Compilation failed."))) p
      end in
    (setLoading false p, calls).

Definition handleRiskScore (p : Page) : Page * list Client.FetchCall :=
  let document := Store.document (store p) in
  if negb (truthy (trim document)) then (p, [])
  else
    let p := setLoading true p in
    let p := setError None p in
    let '(outcome, calls) := Client.riskScore BASE_URL net document in
    let p :=
      match outcome with
      | Fulfilled res => setResult (Some {| Store.type := Store.type_risk; Store.data := res |}) p
      | Rejected e => setError (Some (message_of e (js "Risk scoring failed."))) p
      end in
    (setLoading false p, calls).

End Handlers.

(** What a handler leaves behind once its request has settled. *)
Definition settled (t : Store.ResultType) (fallback : str)
    (outcome : Completion JsValue) (p p' : Page) : Prop :=
  Store.loading (store p') = false
  /\ Store.document (store p') = Store.document (store p)
  /\ Store.language (store p') = Store.language (store p)
  /\ Store.templateId (store p') = Store.templateId (store p)
  /\ activeTab p' = activeTab p
  /\ match outcome with
     | Fulfilled v =>
         Store.result (store p') = Some {| Store.type := t; Store.data := v |}
         /\ error p' = None
     | Rejected e =>
         Store.result (store p') = Store.result (store p)
         /\ error p' = Some (message_of e fallback)
     end.

End Console.

(** The mapping as the specification words it, band by band: below 0.3,
    from 0.3 up to 0.5, from 0.5 up to 0.7, and from 0.7 on.  A value in no
    band (a NaN) has no level. *)
Definition level_by_bands (s : float) : option RiskLevel :=
  if (s <? 0.3)%float then Some low
  else if ((s >=? 0.3) && (s <? 0.5))%float then Some medium
  else if ((s >=? 0.5) && (s <? 0.7))%float then Some high
  else if (s >=? 0.7)%float then Some critical
  else None.

(* --------------------------------------------------------------------- *)
(** ** [006_domain.sql]: documents, analysis results and clauses          *)
(* --------------------------------------------------------------------- *)

Module Schema.

Definition uuid : Type := N.

(** A nullable column is an [option]; [integer] is [Z], [timestamptz] a
    count of microseconds, [jsonb] a parsed value, [double precision] a
    double.  These carriers are wider than the column types; the values a
    column takes are singled out by the [is_...] tests below, which every
    insert applies. *)
Record documents_row : Type := {
  doc_id : uuid;
  doc_user_id : option uuid;
  doc_title : str;
  doc_type : str;
  doc_content_hash : option str;
  doc_word_count : option Z;
  doc_page_count : option Z;
  doc_language : option str;
  doc_created_at : option Z
}.

Record analysis_results_row : Type := {
  ar_id : uuid;
  ar_document_id : option uuid;
  ar_analysis_type : str;
  ar_risk_level : option str;
  ar_issues_found : option Z;
  ar_results : option JsValue;
  ar_created_at : option Z
}.

Record clauses_row : Type := {
  cl_id : uuid;
  cl_document_id : option uuid;
  cl_clause_type : str;
  cl_clause_text : str;
  cl_risk_score : option float;
  cl_position_start : option Z;
  cl_position_end : option Z
}.

(** The three tables, and the keys of [auth.users] that [documents.user_id]
    points into. *)
Record Database : Type := {
  users : list uuid;
  documents : list documents_row;
  analysis_results : list analysis_results_row;
  clauses : list clauses_row
}.

Definition empty : Database :=
  {| users := []; documents := []; analysis_results := []; clauses := [] |}.

(** *** The values of the column types *)

(** [uuid]: 128 bits. *)
Definition is_uuid (u : uuid) : bool := (u <? 2 ^ 128)%N.

(** [integer]: 32 bits, signed. *)
Definition is_integer (z : Z) : bool := ((-2147483648 <=? z) && (z <=? 2147483647))%Z.

(** [text]: characters, here by code point, that is Unicode scalar values;
    the character with code zero cannot be stored. *)
Definition is_character (c : N) : bool :=
  ((1 <=? c) && (c <=? 55295))%N || ((57344 <=? c) && (c <=? 1114111))%N.

Definition is_text (s : str) : bool := forallb is_character s.

(** [timestamptz]: microseconds from the start of the year 2000, from
    4714 BC up to the year 294276; the least and the greatest 64-bit values
    stand for the two infinities. *)
Definition is_timestamptz (z : Z) : bool :=
  ((-211813488000000000 <=? z) && (z <? 9223371331200000000))%Z
  || (z =? -9223372036854775808)%Z || (z =? 9223372036854775807)%Z.

(** [jsonb]: numbers are finite, and strings and keys are text. *)
Fixpoint is_jsonb (v : JsValue) : bool :=
  match v with
  | JNull | JBool _ => true
  | JNumber x => PrimFloat.is_finite x
  | JString s => is_text s
  | JArray items => forallb is_jsonb items
  | JObject fields => forallb (fun kv => is_text (fst kv) && is_jsonb (snd kv)) fields
  end.

(** A nullable column takes null besides the values of its type. *)
Definition nullable {A : Type} (is_value : A -> bool) (v : option A) : bool :=
  match v with
  | None => true
  | Some x => is_value x
  end.

(** The row is a row of the table: each column holds a value of its type.
    How large a single value may be is not part of this. *)
Definition is_documents_row (row : documents_row) : bool :=
  is_uuid (doc_id row) && nullable is_uuid (doc_user_id row)
  && is_text (doc_title row) && is_text (doc_type row)
  && nullable is_text (doc_content_hash row)
  && nullable is_integer (doc_word_count row) && nullable is_integer (doc_page_count row)
  && nullable is_text (doc_language row) && nullable is_timestamptz (doc_created_at row).

Definition is_analysis_results_row (row : analysis_results_row) : bool :=
  is_uuid (ar_id row) && nullable is_uuid (ar_document_id row)
  && is_text (ar_analysis_type row) && nullable is_text (ar_risk_level row)
  && nullable is_integer (ar_issues_found row) && nullable is_jsonb (ar_results row)
  && nullable is_timestamptz (ar_created_at row).

Definition is_clauses_row (row : clauses_row) : bool :=
  is_uuid (cl_id row) && nullable is_uuid (cl_document_id row)
  && is_text (cl_clause_type row) && is_text (cl_clause_text row)
  && nullable is_integer (cl_position_start row) && nullable is_integer (cl_position_end row).

(** The [check (... in (...))] constraints; a null value passes. *)
Definition doc_type_check (t : str) : bool :=
  bool_decide (t ∈ [js "contract"; js "nda"; js "terms"; js "privacy_policy";
                    js "license"; js "other"]).

Definition analysis_type_check (t : str) : bool :=
  bool_decide (t ∈ [js "risk"; js "compliance"; js "clause"; js "summary"]).

Definition risk_level_check (l : option str) : bool :=
  match l with
  | None => true
  | Some l => bool_decide (l ∈ [js "low"; js "medium"; js "high"; js "critical"])
  end.

(** A foreign key is satisfied by null or by a key that is present. *)
Definition references (fk : option uuid) (keys : list uuid) : bool :=
  match fk with
  | None => true
  | Some k => bool_decide (k ∈ keys)
  end.

Definition document_ids (db : Database) : list uuid := doc_id <$> documents db.

(** Whether a foreign key points at one of the given keys. *)
Definition points_into (fk : option uuid) (keys : list uuid) : bool :=
  match fk with
  | None => false
  | Some k => bool_decide (k ∈ keys)
  end.

(** [delete from documents where P], with both [on delete cascade] rules
    applied: the rows of [analysis_results] and [clauses] that reference a
    removed document go with it. *)
Definition delete_documents (P : documents_row -> bool) (db : Database) : Database :=
  let removed := doc_id <$> filter (fun d => P d = true) (documents db) in
  {| users := users db;
     documents := filter (fun d => P d = false) (documents db);
     analysis_results :=
       filter (fun r => points_into (ar_document_id r) removed = false) (analysis_results db);
     clauses :=
       filter (fun r => points_into (cl_document_id r) removed = false) (clauses db) |}.

(** The statements that change the tables.  An insert carries the whole
    row (defaults already filled in); a statement that would violate a
    constraint fails and changes nothing. *)
Inductive Statement : Type :=
  | InsertUser (id : uuid)
  | InsertDocument (row : documents_row)
  | InsertAnalysisResult (row : analysis_results_row)
  | InsertClause (row : clauses_row)
  | DeleteUser (id : uuid)
  | DeleteDocument (id : uuid)
  | DeleteDocumentsWhere (P : documents_row -> bool)
  | DeleteAnalysisResult (id : uuid)
  | DeleteClause (id : uuid).

Definition insert_document (row : documents_row) (db : Database) : Database :=
  if is_documents_row row
     && (bool_decide (doc_id row ∉ document_ids db)
         && references (doc_user_id row) (users db)
         && doc_type_check (doc_type row))
  then {| users := users db; documents := documents db ++ [row];
          analysis_results := analysis_results db; clauses := clauses db |}
  else db.

Definition insert_analysis_result (row : analysis_results_row) (db : Database) : Database :=
  if is_analysis_results_row row
     && (bool_decide (ar_id row ∉ ar_id <$> analysis_results db)
         && references (ar_document_id row) (document_ids db)
         && analysis_type_check (ar_analysis_type row)
         && risk_level_check (ar_risk_level row))
  then {| users := users db; documents := documents db;
          analysis_results := analysis_results db ++ [row]; clauses := clauses db |}
  else db.

Definition insert_clause (row : clauses_row) (db : Database) : Database :=
  if is_clauses_row row
     && (bool_decide (cl_id row ∉ cl_id <$> clauses db)
         && references (cl_document_id row) (document_ids db))
  then {| users := users db; documents := documents db;
          analysis_results := analysis_results db; clauses := clauses db ++ [row] |}
  else db.

Definition delete_document (id : uuid) (db : Database) : Database :=
  delete_documents (fun d => bool_decide (doc_id d = id)) db.

(** Removing a user cascades into [documents] and from there onwards. *)
Definition delete_user (id : uuid) (db : Database) : Database :=
  let db := delete_documents (fun d => bool_decide (doc_user_id d = Some id)) db in
  {| users := filter (fun u => u <> id) (users db); documents := documents db;
     analysis_results := analysis_results db; clauses := clauses db |}.

Definition exec (st : Statement) (db : Database) : Database :=
  match st with
  | InsertUser id =>
      if negb (is_uuid id) || bool_decide (id ∈ users db) then db
      else {| users := users db ++ [id]; documents := documents db;
              analysis_results := analysis_results db; clauses := clauses db |}
  | InsertDocument row => insert_document row db
  | InsertAnalysisResult row => insert_analysis_result row db
  | InsertClause row => insert_clause row db
  | DeleteUser id => delete_user id db
  | DeleteDocument id => delete_document id db
  | DeleteDocumentsWhere P => delete_documents P db
  | DeleteAnalysisResult id =>
      {| users := users db; documents := documents db;
         analysis_results := filter (fun r => ar_id r <> id) (analysis_results db);
         clauses := clauses db |}
  | DeleteClause id =>
      {| users := users db; documents := documents db;
         analysis_results := analysis_results db;
         clauses := filter (fun r => cl_id r <> id) (clauses db) |}
  end.

(** The database after a script of statements, run from the empty one. *)
Definition run (script : list Statement) : Database := foldl (fun db st => exec st db) empty script.

(** Referential integrity of the two [document_id] columns. *)
Definition referential_integrity (db : Database) : Prop :=
  (forall r k, r ∈ analysis_results db -> ar_document_id r = Some k -> k ∈ document_ids db)
  /\ (forall r k, r ∈ clauses db -> cl_document_id r = Some k -> k ∈ document_ids db).

End Schema.

(* --------------------------------------------------------------------- *)
(** ** The engine behind the HTTP interface                               *)
(* --------------------------------------------------------------------- *)

(** The engine ([services/core-engine]) is not among the sources.  Its four
    operations are defined here from the written contract; what the
    contract leaves to configuration (boundary rules, classification rules,
    coefficients, factor weights, template bodies) is a field of [Config],
    so that every statement about the engine holds for all configurations. *)
Module Engine.

(** Modelled from the spec: the engine's error kinds (section 7); the
    engine's own declaration is not in the sources. *)
Inductive EngineError : Set :=
  | EmptyDocument
  | UnsupportedLanguage
  | TemplateNotFound
  | MalformedInput.

(** Modelled from the spec: the result of an engine operation, a value or a
    typed failure and never both (section 7); the engine's own result type
    is not in the sources. *)
Inductive Outcome (A : Type) : Type :=
  | Ok (a : A)
  | Failed (e : EngineError).
Arguments Ok {A} a.
Arguments Failed {A} e.

(** Modelled from the spec: the engine's supported set of language codes,
    {en, ja, de, fr} (section 4.1); the engine's table is not in the
    sources. *)
Definition SUPPORTED_LANGUAGES : list str := [js "en"; js "ja"; js "de"; js "fr"].

(** Modelled from the spec: the engine's test for an empty or
    whitespace-only document (section 4.1), absent from the sources; white
    space is taken as the console takes it. *)
Definition is_blank (document : str) : bool := forallb is_white_space document.

(** Modelled from the spec: the engine's [risk_level] mapping (section 4.3),
    absent from the sources: fixed thresholds, lower bounds inclusive. 
    Scores are exact rationals here; rounding in the engine's arithmetic is
    outside the model. *)
Definition level (score : Q) : RiskLevel :=
  if Qle_bool (7 # 10) score then critical
  else if Qle_bool (5 # 10) score then high
  else if Qle_bool (3 # 10) score then medium
  else low.

(** Modelled from the spec: the engine's clamping of a score to [0,1]
    (section 4.3), absent from the sources. *)
Definition clamp01 (x : Q) : Q := Qmax 0 (Qmin 1 x).

(** Modelled from the spec: the engine's clause types (sections 4.3 and
    4.5); its own enumeration is not in the sources. *)
Inductive ClauseType : Set :=
  | Liability | Indemnification | IPAssignment | Termination
  | Confidentiality | Jurisdiction | Definitions | Other.

(** Modelled from the spec: the engine's [ClauseSpan] (section 3), offsets
    into the normalized text; absent from the sources. *)
Record Span : Set := { span_start : nat; span_end : nat }.

(** Modelled from the spec: the engine's [Clause] (section 3); the client's
    interface of the same name keeps only four of its fields. *)
Record Clause : Type := {
  id : str;
  text : str;
  clause_type : ClauseType;
  risk_level : RiskLevel;
  risk_score : Q;
  span : Span
}.

(** Modelled from the spec: the engine's [Issue] (section 3), absent from
    the sources. *)
Record Issue : Type := {
  issue_id : str;
  description : str;
  severity : RiskLevel;
  location : str
}.

(** Modelled from the spec: the engine's [AnalysisResult] (section 3),
    absent from the sources. *)
Record AnalysisResult : Type := {
  result_risk_score : Q;
  clauses : list Clause;
  issues : list Issue;
  language : str;
  word_count : nat
}.

(** Modelled from the spec: the engine's risk factors (section 4.5); its own
    enumeration is not in the sources. *)
Inductive Factor : Set :=
  | FLiability | FIndemnification | FIPAssignment | FTermination
  | FConfidentiality | FJurisdiction.

#[global] Instance Factor_eq_dec : EqDecision Factor.
Proof. solve_decision. Defined.

(** Modelled from the spec: the fixed list of the engine's factors (section
    4.5), absent from the sources. *)
Definition FACTORS : list Factor :=
  [FLiability; FIndemnification; FIPAssignment; FTermination; FConfidentiality; FJurisdiction].

(** Modelled from the spec: the engine's [RiskFactor] (section 3), absent
    from the sources. *)
Record RiskFactor : Type := {
  factor : Factor;
  weight : Q;
  score : Q;
  factor_description : str
}.

(** Modelled from the spec: the engine's [RiskScoreResult] (section 3),
    absent from the sources. *)
Record RiskScoreResult : Type := {
  overall_score : Q;
  overall_risk_level : RiskLevel;
  risk_factors : list RiskFactor;
  recommendations : list str
}.

(** Modelled from the spec: the engine's language profile (sections 2 and
    9), absent from the sources: where clauses begin and end, how a clause
    is classified, its score before clamping, and the structural issue rules
    (each match gives a description, a severity and a location). *)
Record LanguageProfile : Type := {
  segment : str -> list Span;
  classify : str -> ClauseType;
  raw_score : ClauseType -> str -> Q;
  issue_rules : list Clause -> list (str * RiskLevel * str)
}.

(** Modelled from the spec: what the engine's catalog holds for one template
    besides its id (section 3); the catalog is not in the sources. *)
Record TemplateDetails : Type := {
  details_name : str;
  details_description : str;
  details_body : str;
  details_required_variables : list str;
  details_language_support : list str
}.

(** Modelled from the spec: everything the contract calls configuration and
    the sources do not give: the language profiles, normalization, language
    detection, the factor of a clause type, the factor weights and texts,
    and the templates' contents. *)
Record Config : Type := {
  profile : str -> LanguageProfile;
  normalize : str -> str;
  detect_language : str -> str;
  factor_of : ClauseType -> Factor;
  factor_weight : Factor -> Q;
  describe_factor : Factor -> str;
  recommend : Factor -> str;
  template_details : str -> TemplateDetails
}.

(** Modelled from the spec: the engine's request-scoped identifiers (section
    3), absent from the sources: [clause-001], [issue-001], ..., a prefix
    and the ordinal in at least three digits. *)
Definition ordinal_id (prefix : str) (n : nat) : str :=
  let digits := decimal (N.of_nat n) in
  prefix ++ replicate (3 - length digits) 48%N ++ digits.

(** Modelled from the spec: the text a span covers (section 4.2); the
    engine's segmenter is not in the sources. *)
Definition slice (sp : Span) (t : str) : str :=
  take (span_end sp - span_start sp) (drop (span_start sp) t).

(** Modelled from the spec: the engine's [word_count] (section 4.1), absent
    from the sources: the whitespace-delimited token count. *)
Fixpoint count_words (in_word : bool) (t : str) : nat :=
  match t with
  | [] => 0
  | c :: rest =>
      if is_white_space c then count_words false rest
      else if in_word then count_words true rest
      else S (count_words true rest)
  end.

(** Modelled from the spec: the engine's segmentation step (section 4.2),
    absent from the sources: it never comes back empty; a text without
    recognisable boundaries is one clause spanning all of it. *)
Definition spans_of (p : LanguageProfile) (t : str) : list Span :=
  match segment p t with
  | [] => [ {| span_start := 0; span_end := length t |} ]
  | sps => sps
  end.

(** Modelled from the spec: the engine's classifier and scorer for one
    clause (section 4.3), absent from the sources: the clause is classified,
    scored in [0,1], and its level is computed from that score and from
    nothing else. *)
Definition make_clause (p : LanguageProfile) (t : str) (n : nat) (sp : Span) : Clause :=
  let body := slice sp t in
  let ty := classify p body in
  let s := clamp01 (raw_score p ty body) in
  {| id := ordinal_id (js "clause-") (S n);
     text := body;
     clause_type := ty;
     risk_level := level s;
     risk_score := s;
     span := sp |}.

(** Modelled from the spec: the engine's clause list (sections 4.2 and 4.3),
    absent from the sources: the spans in order, each made into a clause. *)
Definition clauses_of (p : LanguageProfile) (t : str) : list Clause :=
  imap (make_clause p t) (spans_of p t).

(** Modelled from the spec: the engine's issue detector (section 4.4),
    absent from the sources: one issue per rule match, numbered in order. *)
Definition issues_of (p : LanguageProfile) (cs : list Clause) : list Issue :=
  imap (fun n hit =>
          {| issue_id := ordinal_id (js "issue-") (S n);
             description := hit.1.1; severity := hit.1.2; location := hit.2 |})
       (issue_rules p cs).

(** Modelled from the spec: the sum used by the engine's aggregator
    (sections 4.3 and 4.5), absent from the sources. *)
Definition Qsum (l : list Q) : Q := foldr Qplus 0%Q l.

(** Modelled from the spec: the length that weighs a clause in the engine's
    average (section 4.3), absent from the sources: the number of code units
    of its text. *)
Definition clause_length (c : Clause) : Q := inject_Z (Z.of_nat (length (text c))).

(** Modelled from the spec: the engine's length-weighted average of clause
    scores (section 4.3), absent from the sources. *)
Definition weighted_average (cs : list Clause) : Q :=
  (Qsum ((fun c => clause_length c * risk_score c) <$> cs) / Qsum (clause_length <$> cs))%Q.

(** Modelled from the spec: the engine's floor raised by the presence of any
    critical clause (section 4.3), absent from the sources; it is taken as
    the critical threshold itself. *)
Definition critical_floor (cs : list Clause) : Q :=
  if existsb (fun c => Qle_bool (7 # 10) (risk_score c)) cs then (7 # 10)%Q else 0%Q.

(** Modelled from the spec: the engine's document-level score (section 4.3),
    absent from the sources: the larger of the average and the floor. *)
Definition document_risk_score (cs : list Clause) : Q :=
  Qmax (weighted_average cs) (critical_floor cs).

(** Modelled from the spec: the engine's [analyze] (sections 2, 4.1 and 6),
    absent from the sources.  The language is checked first and the document
    second, the order in which section 4.1 names the two failures. *)
Definition analyze (cfg : Config) (document lang : str) : Outcome AnalysisResult :=
  if negb (bool_decide (lang ∈ SUPPORTED_LANGUAGES)) then Failed UnsupportedLanguage
  else if is_blank document then Failed EmptyDocument
  else
    let t := normalize cfg document in
    let p := profile cfg lang in
    let cs := clauses_of p t in
    Ok {| result_risk_score := document_risk_score cs;
          clauses := cs;
          issues := issues_of p cs;
          language := lang;
          word_count := count_words false t |}.

(** Modelled from the spec: a factor's score in the engine's breakdown
    (section 4.5), absent from the sources: the largest score among the
    clauses mapped to the factor, 0 when there is none. *)
Definition factor_score (cfg : Config) (f : Factor) (cs : list Clause) : Q :=
  foldr Qmax 0%Q
    (risk_score <$> filter (fun c => factor_of cfg (clause_type c) = f) cs).

(** Modelled from the spec: one entry of the engine's breakdown (section
    4.5), absent from the sources. *)
Definition risk_factor (cfg : Config) (cs : list Clause) (f : Factor) : RiskFactor :=
  {| factor := f;
     weight := factor_weight cfg f;
     score := factor_score cfg f cs;
     factor_description := describe_factor cfg f |}.

(** Modelled from the spec: the engine's closing recommendation (section
    4.5), absent from the sources; the text is the one the interface
    examples show. *)
Definition DISCLAIMER : str := js "Engage qualified legal counsel before signing.".

(** Modelled from the spec: the order of the engine's recommendations
    (section 4.5), absent from the sources: by descending factor weight. *)
Definition heavier (a b : RiskFactor) : Prop := Qle_bool (weight b) (weight a) = true.

#[global] Instance heavier_dec : RelDecision heavier.
Proof. intros a b. unfold heavier. apply _. Defined.

(** Modelled from the spec: the engine's ordering of factors for its
    recommendations (section 4.5), absent from the sources. *)
Definition by_weight (fs : list RiskFactor) : list RiskFactor := merge_sort heavier fs.

(** Modelled from the spec: the engine's recommendations (section 4.5),
    absent from the sources: one per factor whose score reaches the trigger
    threshold 0.5, by descending weight, then the disclaimer. *)
Definition recommendations_of (cfg : Config) (fs : list RiskFactor) : list str :=
  (recommend cfg ∘ factor <$>
     filter (fun f => Qle_bool (5 # 10) (score f) = true) (by_weight fs))
  ++ [DISCLAIMER].

(** Modelled from the spec: the engine's [riskScore] (sections 2, 4.5 and
    6), absent from the sources. *)
Definition riskScore (cfg : Config) (document : str) : Outcome RiskScoreResult :=
  if is_blank document then Failed EmptyDocument
  else
    let t := normalize cfg document in
    let p := profile cfg (detect_language cfg t) in
    let cs := clauses_of p t in
    let fs := risk_factor cfg cs <$> FACTORS in
    let overall := Qsum ((fun f => weight f * score f)%Q <$> fs) in
    Ok {| overall_score := overall;
          overall_risk_level := level overall;
          risk_factors := fs;
          recommendations := recommendations_of cfg fs |}.

(** *** Templates *)

(** Modelled from the spec: the engine's [Template] (section 3), absent from
    the sources. *)
Record Template : Type := {
  template_id : str;
  name : str;
  template_description : str;
  body : str;
  required_variables : list str;
  language_support : list str
}.

(** Modelled from the spec: what the engine lists for a template (section
    6), absent from the sources; the client declares the same fields. *)
Record TemplateInfo : Type := {
  info_id : str;
  info_name : str;
  info_description : str;
  info_required_variables : list str;
  info_language_support : list str
}.

(** Modelled from the spec: the engine's answer to [listTemplates] (section
    6), absent from the sources; the client declares the same fields. *)
Record TemplatesResponse : Type := {
  templates : list TemplateInfo;
  count : nat
}.

(** Modelled from the spec: the engine's [CompileResult] (section 3), absent
    from the sources; the client declares the same fields. *)
Record CompileResult : Type := {
  compiled_template_id : str;
  compiled_document : str;
  variables_applied : nat;
  missing_variables : list str
}.

(** Modelled from the spec: the ids of the engine's configured templates, in
    catalog order (section 8); the catalog is not in the sources. *)
Definition TEMPLATE_IDS : list str :=
  [js "nda"; js "sla"; js "dpa"; js "tos"; js "privacy"; js "employment"; js "license"].

(** Modelled from the spec: a template of the engine's catalog (section 3),
    built from its id and its configured contents; the catalog is not in the
    sources. *)
Definition make_template (i : str) (d : TemplateDetails) : Template :=
  {| template_id := i;
     name := details_name d;
     template_description := details_description d;
     body := details_body d;
     required_variables := details_required_variables d;
     language_support := details_language_support d |}.

(** Modelled from the spec: the engine's template registry (section 4.6),
    absent from the sources: a fixed read-only catalog. *)
Definition registry (cfg : Config) : list Template :=
  (fun i => make_template i (template_details cfg i)) <$> TEMPLATE_IDS.

(** Modelled from the spec: the engine's registry lookup (section 4.6),
    absent from the sources: it fails with [TemplateNotFound] for an unknown
    id. *)
Definition lookup (cfg : Config) (i : str) : Outcome Template :=
  match List.find (fun t => bool_decide (template_id t = i)) (registry cfg) with
  | Some t => Ok t
  | None => Failed TemplateNotFound
  end.

(** Modelled from the spec: the listing of one template (section 6), absent
    from the sources: the template without its body. *)
Definition info (t : Template) : TemplateInfo :=
  {| info_id := template_id t;
     info_name := name t;
     info_description := template_description t;
     info_required_variables := required_variables t;
     info_language_support := language_support t |}.

(** Modelled from the spec: the engine's [listTemplates] (section 6), absent
    from the sources. *)
Definition listTemplates (cfg : Config) : TemplatesResponse :=
  {| templates := info <$> registry cfg; count := length (registry cfg) |}.

(** Modelled from the spec: the opening marker of the engine's placeholder
    syntax (section 4.6), absent from the sources. *)
Definition OPEN : str := js "{{".
(** Modelled from the spec: the closing marker of the engine's placeholder
    syntax (section 4.6), absent from the sources. *)
Definition CLOSE : str := js "}}".

(** Modelled from the spec: a placeholder as it is written in a body
    (section 4.6); the engine's compiler is not in the sources. *)
Definition marker (n : str) : str := OPEN ++ n ++ CLOSE.

(** Modelled from the spec: the code units of a variable name in the
    engine's placeholder syntax (section 4.6), absent from the sources:
    letters, digits and the underscore. *)
Definition is_name_char (c : N) : bool :=
  ((48 <=? c) && (c <=? 57))%N || ((65 <=? c) && (c <=? 90))%N
  || ((97 <=? c) && (c <=? 122))%N || (c =? 95)%N.

(** Modelled from the spec: the scan of a variable name by the engine's
    compiler (section 4.6), absent from the sources: the longest prefix made
    of name code units. *)
Fixpoint name_prefix (s : str) : str :=
  match s with
  | c :: rest => if is_name_char c then c :: name_prefix rest else []
  | [] => []
  end.

(** Modelled from the spec: the prefix test used by the engine's compiler
    (section 4.6), absent from the sources. *)
Fixpoint starts_with (p s : str) : bool :=
  match p, s with
  | [], _ => true
  | a :: p', b :: s' => (a =? b)%N && starts_with p' s'
  | _ :: _, [] => false
  end.

(** Modelled from the spec: the recognition of a placeholder by the engine's
    compiler (section 4.6), absent from the sources: the name of the
    placeholder that begins at the head of [s], if one does. *)
Definition placeholder_at (s : str) : option str :=
  if starts_with OPEN s then
    let rest := drop 2 s in
    let n := name_prefix rest in
    if truthy n && starts_with CLOSE (drop (length n) rest) then Some n else None
  else None.

(** Modelled from the spec: what the engine's compiler sees in a body
    (section 4.6), absent from the sources: literal code units and
    placeholders. *)
Inductive Token : Type :=
  | Literal (c : N)
  | Placeholder (n : str).

(** Modelled from the spec: the single pass of the engine's compiler over a
    body (section 4.6), absent from the sources; [skip] counts the code
    units of a placeholder already recognised that are still to be passed
    over. *)
Fixpoint tokenize_from (skip : nat) (s : str) : list Token :=
  match s with
  | [] => []
  | c :: rest =>
      match skip with
      | S k => tokenize_from k rest
      | O =>
          match placeholder_at s with
          | Some n => Placeholder n :: tokenize_from (length n + 3) rest
          | None => Literal c :: tokenize_from 0 rest
          end
      end
  end.

(** Modelled from the spec: the scan of a whole body by the engine's
    compiler (section 4.6), absent from the sources. *)
Definition tokenize (s : str) : list Token := tokenize_from 0 s.

(** Modelled from the spec: the placeholders the engine's compiler finds in
    a body (section 4.6), absent from the sources. *)
Definition placeholders (ts : list Token) : list str :=
  omap (fun t => match t with Placeholder n => Some n | Literal _ => None end) ts.

(** Modelled from the spec: the text a token list stands for (section 4.6);
    the engine's compiler is not in the sources. *)
Definition untokenize (ts : list Token) : str :=
  concat ((fun t => match t with Literal c => [c] | Placeholder n => marker n end) <$> ts).

(** Modelled from the spec: the substitution step of the engine's compiler
    (section 4.6), absent from the sources: single-pass and literal; a
    placeholder with no binding stays as it was written, and an inserted
    value is never scanned again. *)
Definition substitute (vars : gmap str str) (ts : list Token) : str :=
  concat ((fun t => match t with
                    | Literal c => [c]
                    | Placeholder n => default (marker n) (vars !! n)
                    end) <$> ts).

(** Modelled from the spec: the engine's [compile] (sections 4.6 and 6),
    absent from the sources. *)
Definition compile (cfg : Config) (i : str) (vars : gmap str str) : Outcome CompileResult :=
  match lookup cfg i with
  | Failed e => Failed e
  | Ok t =>
      let ts := tokenize (body t) in
      Ok {| compiled_template_id := template_id t;
            compiled_document := substitute vars ts;
            variables_applied :=
              length (filter (fun n => is_Some (vars !! n)) (remove_dups (placeholders ts)));
            missing_variables :=
              filter (fun v => vars !! v = None) (required_variables t) |}
  end.

End Engine.

(* --------------------------------------------------------------------- *)
(** ** A configuration and inputs to run the definitions on               *)
(* --------------------------------------------------------------------- *)

Module Examples.
Import Engine.

(** Spans that end after each full stop; a last unterminated sentence is
    kept. *)
Fixpoint sentence_spans (start pos : nat) (t : str) : list Span :=
  match t with
  | [] => if (start <? pos)%nat then [ {| span_start := start; span_end := pos |} ] else []
  | c :: rest =>
      if (c =? 46)%N
      then {| span_start := start; span_end := S pos |} :: sentence_spans (S pos) (S pos) rest
      else sentence_spans start (S pos) rest
  end.

Fixpoint contains (needle s : str) : bool :=
  starts_with needle s
  || match s with
     | [] => false
     | _ :: rest => contains needle rest
     end.

Definition example_profile : LanguageProfile :=
  {| segment := sentence_spans 0 0;
     classify := fun t =>
       if contains (js "liability") t then Liability
       else if contains (js "terminate") t then Termination
       else Other;
     raw_score := fun ty _ =>
       match ty with
       | Liability => 9 # 10
       | Termination => 4 # 10
       | _ => 0%Q
       end;
     issue_rules := fun cs =>
       if existsb (fun c => match clause_type c with Termination => true | _ => false end) cs
       then []
       else [(js "No termination clause.", high, js "document")] |}.

Definition nda_details : TemplateDetails :=
  {| details_name := js "Non-Disclosure Agreement";
     details_description := js "Mutual non-disclosure agreement";
     details_body :=
       js "NON-DISCLOSURE AGREEMENT: This Agreement is made between {{party_a}} and {{party_b}}, effective {{effective_date}}, under the laws of {{jurisdiction}}. Signed for {{party_a}} by {{signatory}}.";
     details_required_variables :=
       [js "party_a"; js "party_b"; js "effective_date"; js "jurisdiction"];
     details_language_support := [js "en"; js "ja"; js "de"] |}.

Definition plain_details (i : str) : TemplateDetails :=
  {| details_name := i;
     details_description := [];
     details_body := js "Between {{party_a}} and {{party_b}}.";
     details_required_variables := [js "party_a"; js "party_b"];
     details_language_support := [js "en"] |}.

Definition example_config : Config :=
  {| profile := fun _ => example_profile;
     normalize := fun t => t;
     detect_language := fun _ => js "en";
     factor_of := fun ty =>
       match ty with
       | Liability => FLiability
       | Indemnification => FIndemnification
       | IPAssignment => FIPAssignment
       | Termination => FTermination
       | Confidentiality => FConfidentiality
       | _ => FJurisdiction
       end;
     factor_weight := fun f =>
       match f with
       | FLiability => 30 # 100
       | FIndemnification => 20 # 100
       | FIPAssignment => 15 # 100
       | FTermination => 15 # 100
       | FConfidentiality => 10 # 100
       | FJurisdiction => 10 # 100
       end;
     describe_factor := fun _ => [];
     recommend := fun _ => js "Review this clause.";
     template_details := fun i =>
       if bool_decide (i = js "nda") then nda_details else plain_details i |}.

(** One critical sentence among harmless ones. *)
Definition example_document : str :=
  js "The parties meet monthly. The supplier accepts unlimited liability. Notices are sent by post. Each party keeps its own records of every meeting held.".

Definition not_found_response : Client.Response :=
  {| Client.ok := false;
     Client.status := 404;
     Client.statusText := js "Not Found";
     Client.text := Fulfilled (js "template not found");
     Client.json := Rejected (ErrorObject (js "Unexpected token")) |}.

Definition example_network : Client.Network := fun _ => Fulfilled not_found_response.

Definition example_document_row (i : Schema.uuid) : Schema.documents_row :=
  {| Schema.doc_id := i; Schema.doc_user_id := Some 1%N; Schema.doc_title := js "Supply agreement";
     Schema.doc_type := js "contract"; Schema.doc_content_hash := None;
     Schema.doc_word_count := Some 24%Z; Schema.doc_page_count := Some 1%Z;
     Schema.doc_language := Some (js "en"); Schema.doc_created_at := None |}.

Definition example_analysis_row (i document : Schema.uuid) : Schema.analysis_results_row :=
  {| Schema.ar_id := i; Schema.ar_document_id := Some document;
     Schema.ar_analysis_type := js "risk"; Schema.ar_risk_level := Some (js "critical");
     Schema.ar_issues_found := Some 1%Z; Schema.ar_results := None;
     Schema.ar_created_at := None |}.

Definition example_clause_row (i document : Schema.uuid) : Schema.clauses_row :=
  {| Schema.cl_id := i; Schema.cl_document_id := Some document;
     Schema.cl_clause_type := js "Liability";
     Schema.cl_clause_text := js "The supplier accepts unlimited liability.";
     Schema.cl_risk_score := Some 0.9%float;
     Schema.cl_position_start := Some 25%Z; Schema.cl_position_end := Some 67%Z |}.

(** A user with two documents; the last clause points at a document that
    does not exist and is refused. *)
Definition example_script : list Schema.Statement :=
  [ Schema.InsertUser 1%N;
    Schema.InsertDocument (example_document_row 10%N);
    Schema.InsertDocument (example_document_row 11%N);
    Schema.InsertAnalysisResult (example_analysis_row 20%N 10%N);
    Schema.InsertClause (example_clause_row 30%N 10%N);
    Schema.InsertClause (example_clause_row 31%N 11%N);
    Schema.InsertClause (example_clause_row 32%N 99%N) ].

Definition example_page : Console.Page :=
  {| Console.store :=
       {| Store.document := example_document; Store.language := js "en";
          Store.templateId := js "nda"; Store.result := None; Store.loading := false |};
     Console.activeTab := Console.tab_analyze;
     Console.error := None |}.

End Examples.

(* --------------------------------------------------------------------- *)
(** ** The console page: what it renders                                  *)
(* --------------------------------------------------------------------- *)

Module View.
Import Console.

(** [disabled={loading || !document.trim()}], on the Analyze button. *)
Definition analyze_disabled (p : Page) : bool :=
  Store.loading (store p) || negb (truthy (trim (Store.document (store p)))).

(** The same expression, on the Risk Score button. *)
Definition riskScore_disabled (p : Page) : bool :=
  Store.loading (store p) || negb (truthy (trim (Store.document (store p)))).

(** [disabled={loading || !templateId}], on the Compile button. *)
Definition compile_disabled (p : Page) : bool :=
  Store.loading (store p) || negb (truthy (Store.templateId (store p))).

(** [{loading ? "Analyzing..." : "Analyze Document"}] *)
Definition analyze_label (p : Page) : str :=
  if Store.loading (store p) then js "Analyzing..." else js "Analyze Document".

(** [{loading ? "Compiling..." : "Compile Template"}] *)
Definition compile_label (p : Page) : str :=
  if Store.loading (store p) then js "Compiling..." else js "Compile Template".

(** [{error && (<div ...>{error}</div>)}]: the text of the error banner
    when there is one.  [null] and the empty string are both falsy. *)
Definition error_banner (p : Page) : option str :=
  match error p with
  | Some m => if truthy m then Some m else None
  | None => None
  end.

(** The two blocks of the result panel that are drawn from the state
    alone, and the conditions they are rendered under: the placeholder under
    [!result && !loading], the spinner under [loading].  The third block,
    under [result && !loading], reads fields of [result.data] while it is
    drawn; whether it can be drawn depends on the reply, and it is left out
    here. *)
Inductive Block : Set := placeholder | spinner.

Definition has_result (p : Page) : bool :=
  match Store.result (store p) with Some _ => true | None => false end.

Definition rendered (b : Block) (p : Page) : bool :=
  match b with
  | placeholder => negb (has_result p) && negb (Store.loading (store p))
  | spinner => Store.loading (store p)
  end.

(** The colour classes of a clause's level tag:
    [c.risk_level === "high" ? ... : c.risk_level === "medium" ? ... : ...]. *)
Definition clause_tag_colors (risk_level : str) : str :=
  if bool_decide (risk_level = js "high") then js "bg-orange-500/20 text-orange-400"
  else if bool_decide (risk_level = js "medium") then js "bg-yellow-500/20 text-yellow-400"
  else js "bg-green-500/20 text-green-400".

(** The order of the levels, for comparing badges. *)
Definition rank (l : RiskLevel) : nat :=
  match l with low => 0 | medium => 1 | high => 2 | critical => 3 end.

End View.

(* --------------------------------------------------------------------- *)
(** ** The console page: events                                           *)
(* --------------------------------------------------------------------- *)

(** The handlers are [async]: each runs up to its [await], the page goes on
    reacting to the user, and the rest of the handler runs when the request
    settles.  The store's setters act on the store as it is at that moment. *)
Module Interaction.
Import Console.

Definition setDocument (d : str) (p : Page) : Page :=
  {| store := Store.setDocument d (store p); activeTab := activeTab p; error := error p |}.

Definition setLanguage (l : str) (p : Page) : Page :=
  {| store := Store.setLanguage l (store p); activeTab := activeTab p; error := error p |}.

Definition setTemplateId (t : str) (p : Page) : Page :=
  {| store := Store.setTemplateId t (store p); activeTab := activeTab p; error := error p |}.

(** The text a handler shows when the thrown value is not an [Error]. *)
Definition fallback (k : Store.ResultType) : str :=
  match k with
  | Store.type_analyze => js "Analysis failed."
  | Store.type_compile => js "Compilation failed."
  | Store.type_risk => js "Risk scoring failed."
  end.

(** The part of a handler after its [await]: the [try] block's
    [setResult], or the [catch] block's [setError], then [finally]. *)
Definition after_await (k : Store.ResultType) (outcome : Completion JsValue) (p : Page) : Page :=
  let p :=
    match outcome with
    | Fulfilled res => setResult (Some {| Store.type := k; Store.data := res |}) p
    | Rejected e => setError (Some (message_of e (fallback k))) p
    end in
  setLoading false p.

Section Events.

Variable BASE_URL : str.
Variable net : Client.Network.

(** The part of a handler before its [await]: the guard, the two setters,
    and the client call, which issues the request.  [None] is the early
    [return]. *)
Definition handleAnalyze_before_await (p : Page)
  : option (Page * (Completion JsValue * list Client.FetchCall)) :=
  let document := Store.document (store p) in
  let language := Store.language (store p) in
  if negb (truthy (trim document)) then None
  else
    let p := setLoading true p in
    let p := setError None p in
    Some (p, Client.analyze BASE_URL net document language).

Definition handleCompile_before_await (p : Page)
  : option (Page * (Completion JsValue * list Client.FetchCall)) :=
  let templateId := Store.templateId (store p) in
  if negb (truthy templateId) then None
  else
    let p := setLoading true p in
    let p := setError None p in
    Some (p, Client.compile BASE_URL net templateId []).

Definition handleRiskScore_before_await (p : Page)
  : option (Page * (Completion JsValue * list Client.FetchCall)) :=
  let document := Store.document (store p) in
  if negb (truthy (trim document)) then None
  else
    let p := setLoading true p in
    let p := setError None p in
    Some (p, Client.riskScore BASE_URL net document).

(** The three handlers by the type of result they store, the condition
    under which each gets past its early [return], and the [fetch] call each
    makes then. *)
Definition handler (k : Store.ResultType) : Page -> Page * list Client.FetchCall :=
  match k with
  | Store.type_analyze => handleAnalyze BASE_URL net
  | Store.type_compile => handleCompile BASE_URL net
  | Store.type_risk => handleRiskScore BASE_URL net
  end.

Definition guard (k : Store.ResultType) (p : Page) : bool :=
  match k with
  | Store.type_analyze | Store.type_risk => truthy (trim (Store.document (store p)))
  | Store.type_compile => truthy (Store.templateId (store p))
  end.

Definition call_of (k : Store.ResultType) (p : Page) : Client.FetchCall :=
  match k with
  | Store.type_analyze =>
      Client.fetch_call BASE_URL Client.POST (js "/api/v1/legal/analyze")
        (Some (Client.AnalyzeRequest (Store.document (store p)) (Store.language (store p))))
  | Store.type_compile =>
      Client.fetch_call BASE_URL Client.POST (js "/api/v1/legal/compile")
        (Some (Client.CompileRequest (Store.templateId (store p)) []))
  | Store.type_risk =>
      Client.fetch_call BASE_URL Client.POST (js "/api/v1/legal/risk-score")
        (Some (Client.RiskRequest (Store.document (store p))))
  end.

(** The page, the requests that have not settled yet (with what each will
    settle to), and every [fetch] call made so far. *)
Record Session : Type := {
  page : Page;
  in_flight : list (Store.ResultType * Completion JsValue);
  calls : list Client.FetchCall
}.

Definition initial : Session :=
  {| page := {| store := Store.initialState; activeTab := tab_analyze; error := None |};
     in_flight := [];
     calls := [] |}.

(** What can happen to the page.  A select offers its options only: the
    language select those of [LANGUAGES], the template select the empty
    value and those of [TEMPLATES].  A control exists only on its tab, and a
    disabled button does not fire. *)
Inductive Event : Type :=
  | ClickTab (t : Tab)
  | ChangeLanguage (option_index : nat)
  | ChangeDocument (d : str)
  | ChangeTemplate (option_index : option nat)
  | ClickAnalyze
  | ClickRiskScore
  | ClickCompile
  | Settle.

Definition on_tab (t : Tab) (s : Session) : bool :=
  match activeTab (page s), t with
  | tab_analyze, tab_analyze | tab_compile, tab_compile => true
  | _, _ => false
  end.

Definition with_page (f : Page -> Page) (s : Session) : Session :=
  {| page := f (page s); in_flight := in_flight s; calls := calls s |}.

Definition launch (k : Store.ResultType)
    (started : option (Page * (Completion JsValue * list Client.FetchCall)))
    (s : Session) : Session :=
  match started with
  | None => s
  | Some (p, (outcome, made)) =>
      {| page := p; in_flight := in_flight s ++ [(k, outcome)]; calls := calls s ++ made |}
  end.

Definition step (s : Session) (e : Event) : Session :=
  match e with
  | ClickTab t => with_page (setActiveTab t) s
  | ChangeLanguage n =>
      match on_tab tab_analyze s, LANGUAGES !! n with
      | true, Some o => with_page (setLanguage (value o)) s
      | _, _ => s
      end
  | ChangeDocument d =>
      if on_tab tab_analyze s then with_page (setDocument d) s else s
  | ChangeTemplate n =>
      if on_tab tab_compile s then
        match n with
        | None => with_page (setTemplateId []) s
        | Some n =>
            match TEMPLATES !! n with
            | Some o => with_page (setTemplateId (value o)) s
            | None => s
            end
        end
      else s
  | ClickAnalyze =>
      if on_tab tab_analyze s && negb (View.analyze_disabled (page s))
      then launch Store.type_analyze (handleAnalyze_before_await (page s)) s
      else s
  | ClickRiskScore =>
      if on_tab tab_analyze s && negb (View.riskScore_disabled (page s))
      then launch Store.type_risk (handleRiskScore_before_await (page s)) s
      else s
  | ClickCompile =>
      if on_tab tab_compile s && negb (View.compile_disabled (page s))
      then launch Store.type_compile (handleCompile_before_await (page s)) s
      else s
  | Settle =>
      match in_flight s with
      | [] => s
      | (k, outcome) :: rest =>
          {| page := after_await k outcome (page s); in_flight := rest; calls := calls s |}
      end
  end.

Definition run (events : list Event) : Session := foldl step initial events.

(** What is checked of a session: at most one request has not settled,
    [loading] says whether one has, the two selected values are values on
    offer, and every call made was made by a handler past its guard, with a
    language on offer and, for a compilation, a template on offer. *)
Definition sound (s : Session) : Prop :=
  length (in_flight s) <= 1
  /\ (Store.loading (store (page s)) = true <-> in_flight s <> [])
  /\ Store.language (store (page s)) ∈ value <$> LANGUAGES
  /\ (Store.templateId (store (page s)) = []
      \/ Store.templateId (store (page s)) ∈ value <$> TEMPLATES)
  /\ (forall c, c ∈ calls s ->
        exists k p, c = call_of k p /\ guard k p = true
                    /\ Store.language (store p) ∈ value <$> LANGUAGES
                    /\ (k = Store.type_compile ->
                          Store.templateId (store p) ∈ value <$> TEMPLATES)).

End Events.

End Interaction.

(* --------------------------------------------------------------------- *)
(** ** The schema's constraints as a property of a database               *)
(* --------------------------------------------------------------------- *)

Module Constraints.
Import Schema.

(** The [primary key] of each table. *)
Definition primary_keys (db : Database) : Prop :=
  NoDup (users db)
  /\ NoDup (document_ids db)
  /\ NoDup (ar_id <$> analysis_results db)
  /\ NoDup (cl_id <$> clauses db).

(** The three [check] constraints. *)
Definition checks (db : Database) : Prop :=
  (forall d, d ∈ documents db -> doc_type_check (doc_type d) = true)
  /\ (forall r, r ∈ analysis_results db ->
        analysis_type_check (ar_analysis_type r) = true
        /\ risk_level_check (ar_risk_level r) = true).

(** [documents.user_id references auth.users(id)]. *)
Definition user_references (db : Database) : Prop :=
  forall d k, d ∈ documents db -> doc_user_id d = Some k -> k ∈ users db.

End Constraints.

(* ===================================================================== *)
(** * Part II: lemmas and theorems                                        *)
(* ===================================================================== *)

(** ** The order on doubles *)

(** Comparisons of doubles are decided on their sign, exponent and
    mantissa; the facts below are read off [SFcompare]. *)
Ltac sf_order :=
  repeat match goal with
  | H : context [Z.compare ?e ?f] |- _ => destruct (Z.compare_spec e f); simpl in H
  | H : context [PosDef.Pos.compare_cont Eq ?m ?n] |- _ =>
      change (PosDef.Pos.compare_cont Eq m n) with (Pos.compare m n) in H;
      destruct (Pos.compare_spec m n); simpl in H
  | |- context [Z.compare ?e ?f] => destruct (Z.compare_spec e f); simpl
  | |- context [PosDef.Pos.compare_cont Eq ?m ?n] =>
      change (PosDef.Pos.compare_cont Eq m n) with (Pos.compare m n);
      destruct (Pos.compare_spec m n); simpl
  end; try discriminate; try reflexivity; try lia.

Ltac sf_cases x y z :=
  destruct x as [[]|[]| |[] ? ?], y as [[]|[]| |[] ? ?], z as [[]|[]| |[] ? ?];
  simpl; try discriminate; try reflexivity.

Lemma SFltb_leb_trans x y z :
  SFltb x y = true -> SFleb y z = true -> SFleb z x = false.
Proof.
  unfold SFltb, SFleb. sf_cases x y z; intros H1 H2; sf_order.
Qed.

Lemma SFleb_total x y :
  SFleb x x = true -> SFleb y y = true -> SFltb x y = true \/ SFleb y x = true.
Proof.
  unfold SFltb, SFleb.
  destruct x as [[]|[]| |[] ? ?], y as [[]|[]| |[] ? ?]; simpl;
    intros H1 H2; try discriminate; auto; sf_order; auto.
Qed.

Lemma SFleb_refl_l x y : SFleb x y = true -> SFleb y y = true.
Proof.
  unfold SFleb.
  destruct x as [[]|[]| |[] ? ?], y as [[]|[]| |[] ? ?]; simpl;
    intros H1; try discriminate; auto; sf_order.
Qed.

Lemma float_lt_le_not_ge (s a b : float) :
  (s <? a)%float = true -> (a <=? b)%float = true -> (s >=? b)%float = false.
Proof.
  unfold geb. rewrite ltb_spec, !leb_spec. apply SFltb_leb_trans.
Qed.

Lemma float_lt_not_ge (s a : float) :
  (s <? a)%float = true -> (s >=? a)%float = false.
Proof.
  intros H. apply (float_lt_le_not_ge s a a H).
  rewrite leb_spec. rewrite ltb_spec in H. revert H. unfold SFltb, SFleb.
  destruct (Prim2SF s) as [[]|[]| |[] ? ?], (Prim2SF a) as [[]|[]| |[] ? ?]; simpl;
    intros H; try discriminate; auto; sf_order.
Qed.

Lemma float_lt_or_ge (lo s c : float) :
  (lo <=? s)%float = true -> (c <=? c)%float = true ->
  (s <? c)%float = true \/ (s >=? c)%float = true.
Proof.
  unfold geb. rewrite ltb_spec, !leb_spec. intros H1 H2.
  apply SFleb_total; [ exact (SFleb_refl_l _ _ H1) | exact H2 ].
Qed.

(** ** Risk levels and scores *)

Lemma RiskBadge_level_low (s : float) :
  (s <? 0.3)%float = true -> Console.RiskBadge_level s = low.
Proof.
  intros H. unfold Console.RiskBadge_level.
  rewrite (float_lt_le_not_ge s 0.3 0.7 H eq_refl).
  rewrite (float_lt_le_not_ge s 0.3 0.5 H eq_refl).
  rewrite (float_lt_not_ge s 0.3 H). reflexivity.
Qed.

Lemma RiskBadge_level_medium (s : float) :
  (s >=? 0.3)%float = true -> (s <? 0.5)%float = true -> Console.RiskBadge_level s = medium.
Proof.
  intros H1 H2. unfold Console.RiskBadge_level.
  rewrite (float_lt_le_not_ge s 0.5 0.7 H2 eq_refl).
  rewrite (float_lt_not_ge s 0.5 H2), H1. reflexivity.
Qed.

Lemma RiskBadge_level_high (s : float) :
  (s >=? 0.5)%float = true -> (s <? 0.7)%float = true -> Console.RiskBadge_level s = high.
Proof.
  intros H1 H2. unfold Console.RiskBadge_level.
  rewrite (float_lt_not_ge s 0.7 H2), H1. reflexivity.
Qed.

Lemma RiskBadge_level_critical (s : float) :
  (s >=? 0.7)%float = true -> Console.RiskBadge_level s = critical.
Proof. intros H. unfold Console.RiskBadge_level. rewrite H. reflexivity. Qed.

Lemma RiskBadge_level_bands (s : float) :
  (0 <=? s)%float = true -> level_by_bands s = Some (Console.RiskBadge_level s).
Proof.
  intros H0. unfold level_by_bands.
  destruct (s <? 0.3)%float eqn:L3.
  { rewrite RiskBadge_level_low; auto. }
  destruct (float_lt_or_ge 0 s 0.3 H0 eq_refl) as [E|G3]; [congruence|]. rewrite G3. simpl.
  destruct (s <? 0.5)%float eqn:L5.
  { rewrite RiskBadge_level_medium; auto. }
  destruct (float_lt_or_ge 0 s 0.5 H0 eq_refl) as [E|G5]; [congruence|]. rewrite G5. simpl.
  destruct (s <? 0.7)%float eqn:L7.
  { rewrite RiskBadge_level_high; auto. }
  destruct (float_lt_or_ge 0 s 0.7 H0 eq_refl) as [E|G7]; [congruence|]. rewrite G7.
  rewrite RiskBadge_level_critical; auto.
Qed.

(** Without the range hypothesis the two differ: a NaN is in no band, and
    the badge shows it as low. *)
Lemma RiskBadge_level_nan :
  Console.RiskBadge_level nan = low /\ level_by_bands nan = None.
Proof. split; reflexivity. Qed.

Module EngineFacts.
Import Engine.

Lemma Qle_bool_false (a q : Q) : (q < a)%Q -> Qle_bool a q = false.
Proof.
  intros H. destruct (Qle_bool a q) eqn:E; [|reflexivity].
  apply Qle_bool_iff in E. exfalso. exact (Qlt_not_le _ _ H E).
Qed.

Lemma Qle_bool_true (a q : Q) : (a <= q)%Q -> Qle_bool a q = true.
Proof. apply Qle_bool_iff. Qed.

Lemma level_bands (q : Q) :
  ((q < 3 # 10)%Q -> level q = low)
  /\ ((3 # 10 <= q)%Q -> (q < 5 # 10)%Q -> level q = medium)
  /\ ((5 # 10 <= q)%Q -> (q < 7 # 10)%Q -> level q = high)
  /\ ((7 # 10 <= q)%Q -> level q = critical).
Proof.
  unfold level. repeat split.
  - intros H. rewrite !Qle_bool_false; [reflexivity|exact H| |].
    + eapply Qlt_trans; [exact H|reflexivity].
    + eapply Qlt_trans; [exact H|reflexivity].
  - intros H1 H2. rewrite (Qle_bool_false (7 # 10)), (Qle_bool_false (5 # 10)),
      (Qle_bool_true (3 # 10)); auto.
    eapply Qlt_trans; [exact H2|reflexivity].
  - intros H1 H2. rewrite (Qle_bool_false (7 # 10)), (Qle_bool_true (5 # 10)); auto.
  - intros H. rewrite (Qle_bool_true (7 # 10)); auto.
Qed.

Lemma make_clause_level p t n sp :
  risk_level (make_clause p t n sp) = level (risk_score (make_clause p t n sp)).
Proof. reflexivity. Qed.

Lemma clauses_of_level p t :
  Forall (fun c => risk_level c = level (risk_score c)) (clauses_of p t).
Proof.
  apply Forall_forall. intros c Hc.
  apply elem_of_lookup_imap_1 in Hc as (n & sp & -> & _). apply make_clause_level.
Qed.

End EngineFacts.

(** C1.  For a score in [0,1] the level shown by the console's badge is the
    one the fixed bands give: below 0.3 low, from 0.3 medium, from 0.5 high,
    from 0.7 critical.  The engine's mapping has the same bands, every clause
    of an analysis carries the level of its own score, and a risk breakdown
    carries the level of its overall score. *)
Theorem risk_level_is_level_of_score (s : float) :
  (0 <=? s)%float = true -> (s <=? 1)%float = true ->
  level_by_bands s = Some (Console.RiskBadge_level s)
  /\ (forall q : Q,
        ((q < 3 # 10)%Q -> Engine.level q = low)
        /\ ((3 # 10 <= q)%Q -> (q < 5 # 10)%Q -> Engine.level q = medium)
        /\ ((5 # 10 <= q)%Q -> (q < 7 # 10)%Q -> Engine.level q = high)
        /\ ((7 # 10 <= q)%Q -> Engine.level q = critical))
  /\ (forall cfg document lang r,
        Engine.analyze cfg document lang = Engine.Ok r ->
        Forall (fun c => Engine.risk_level c = Engine.level (Engine.risk_score c))
               (Engine.clauses r))
  /\ (forall cfg document r,
        Engine.riskScore cfg document = Engine.Ok r ->
        Engine.overall_risk_level r = Engine.level (Engine.overall_score r)).
Proof.
  intros H0 _. split; [exact (RiskBadge_level_bands s H0)|].
  split; [exact EngineFacts.level_bands|]. split.
  - intros cfg document lang r. unfold Engine.analyze.
    destruct (negb _); [discriminate|]. destruct (Engine.is_blank _); [discriminate|].
    intros [= <-]. apply EngineFacts.clauses_of_level.
  - intros cfg document r. unfold Engine.riskScore.
    destruct (Engine.is_blank _); [discriminate|]. intros [= <-]. reflexivity.
Qed.

Lemma risk_level_is_level_of_score_witness :
  level_by_bands 0.62 = Some high /\ Console.RiskBadge_level 0.62 = high.
Proof.
  destruct (risk_level_is_level_of_score 0.62 eq_refl eq_refl) as [H _].
  split; [exact H | reflexivity].
Defined.

(** ** Strings *)

Lemma trimStart_nil (s : str) : trimStart s = [] <-> forallb is_white_space s = true.
Proof.
  induction s as [|c rest IH]; simpl; [tauto|].
  destruct (is_white_space c); simpl; [exact IH|]. split; discriminate.
Qed.

Lemma trimStart_head (s : str) :
  forallb is_white_space (trimStart s) = true -> trimStart s = [].
Proof.
  induction s as [|c rest IH]; simpl; [reflexivity|].
  destruct (is_white_space c) eqn:E; [exact IH|]. simpl. rewrite E. discriminate.
Qed.

Lemma forallb_rev {A} (f : A -> bool) (l : list A) : forallb f (rev l) = forallb f l.
Proof.
  induction l as [|a l IH]; simpl; [reflexivity|].
  rewrite forallb_app, IH. simpl. rewrite andb_true_r. apply andb_comm.
Qed.

Lemma trim_nil (s : str) : trim s = [] <-> forallb is_white_space s = true.
Proof.
  unfold trim, trimEnd. split.
  - intros H. apply (f_equal (@rev N)) in H. rewrite rev_involutive in H. simpl in H.
    apply trimStart_nil in H. rewrite forallb_rev in H.
    apply trimStart_nil. apply trimStart_head. exact H.
  - intros H. apply trimStart_nil in H. rewrite H. reflexivity.
Qed.

(** [!s.trim()] holds exactly of the strings made of white space only. *)
Lemma not_truthy_trim (s : str) :
  negb (truthy (trim s)) = forallb is_white_space s.
Proof.
  destruct (forallb is_white_space s) eqn:E.
  - apply trim_nil in E. rewrite E. reflexivity.
  - destruct (trim s) eqn:T; [|reflexivity].
    apply trim_nil in T. congruence.
Qed.

(** ** The HTTP helper *)

Module ClientFacts.
Import Client.

Lemma handle_response_not_ok (res : Response) :
  ok res = false ->
  handle_response res = Rejected (ErrorObject (error_message res)).
Proof. intros H. unfold handle_response. rewrite H. reflexivity. Qed.

Lemma handle_response_ok (res : Response) :
  ok res = true -> handle_response res = json res.
Proof. intros H. unfold handle_response. rewrite H. reflexivity. Qed.

(** The message is the status code, a space and the status text, followed
    by [": "] and the body exactly when the body could be read and is not
    empty. *)
Lemma error_message_shape (res : Response) :
  exists tail,
    error_message res = decimal (status res) ++ js " " ++ statusText res ++ tail
    /\ (tail = [] /\ (text res = Fulfilled [] \/ exists e, text res = Rejected e)
        \/ exists t, text res = Fulfilled t /\ t <> [] /\ tail = js ": " ++ t).
Proof.
  unfold error_message. destruct (text res) as [[|c t]|e]; simpl truthy; cbv iota.
  - exists []. split; [reflexivity|]. left. auto.
  - exists (js ": " ++ c :: t). split; [reflexivity|]. right. exists (c :: t). auto.
  - exists []. split; [reflexivity|]. left. split; [reflexivity|]. right. eauto.
Qed.

Lemma request_calls BASE_URL net m path b :
  (request BASE_URL net m path b).2 = [fetch_call BASE_URL m path b].
Proof. reflexivity. Qed.

(** [request] fulfils only with the parsed body of an ok response. *)
Lemma request_fulfilled BASE_URL net m path b v :
  (request BASE_URL net m path b).1 = Fulfilled v ->
  exists res, net (fetch_call BASE_URL m path b) = Fulfilled res
              /\ ok res = true /\ json res = Fulfilled v.
Proof.
  unfold request. simpl. destruct (net _) as [res|e]; [|discriminate].
  unfold handle_response. destruct (ok res) eqn:Hok; simpl; [|discriminate].
  intros H. exists res. auto.
Qed.

End ClientFacts.

(** C9.  When [fetch] produced a response that is not ok, [request] throws
    an [Error] whose message is the status code, a space and the status
    text, with [": "] and the body appended when the body is not empty, and
    it returns nothing; when the response is ok, [request] settles as the
    parsing of the body does, returning the parsed value.  Whatever the
    network does, a client operation that returns a value returns the whole
    parsed body of an ok response. *)
Theorem request_returns_parsed_body_or_throws
  (BASE_URL : str) (net : Client.Network) (m : Client.Method) (path : str)
  (b : option JsValue) (res : Client.Response) :
  net (Client.fetch_call BASE_URL m path b) = Fulfilled res ->
  let outcome := (Client.request BASE_URL net m path b).1 in
  (Client.ok res = false ->
     (exists tail,
        outcome = Rejected (ErrorObject
          (decimal (Client.status res) ++ js " " ++ Client.statusText res ++ tail))
        /\ (tail = [] \/ exists t, Client.text res = Fulfilled t /\ t <> [] /\ tail = js ": " ++ t))
     /\ forall v, outcome <> Fulfilled v)
  /\ (Client.ok res = true ->
        outcome = Client.json res
        /\ forall v, Client.json res = Fulfilled v -> outcome = Fulfilled v)
  /\ (forall net' document lang template_id variables v,
        ((Client.analyze BASE_URL net' document lang).1 = Fulfilled v
         \/ (Client.compile BASE_URL net' template_id variables).1 = Fulfilled v
         \/ (Client.templates BASE_URL net').1 = Fulfilled v
         \/ (Client.riskScore BASE_URL net' document).1 = Fulfilled v) ->
        exists call res', net' call = Fulfilled res'
                          /\ Client.ok res' = true /\ Client.json res' = Fulfilled v).
Proof.
  intros Hnet outcome. subst outcome. unfold Client.request. simpl. rewrite Hnet.
  split; [|split].
  - intros Hok. rewrite (ClientFacts.handle_response_not_ok res Hok).
    split; [|discriminate].
    destruct (ClientFacts.error_message_shape res) as (tail & -> & Ht).
    exists tail. split; [reflexivity|]. destruct Ht as [[-> _]|Ht]; auto.
  - intros Hok. rewrite (ClientFacts.handle_response_ok res Hok). auto.
  - intros net' document lang template_id variables v H.
    destruct H as [H|[H|[H|H]]];
      apply ClientFacts.request_fulfilled in H as (res' & H1 & H2 & H3); eauto.
Qed.

(** ** The console's handlers *)

Module ConsoleFacts.
Import Console.

Section HandlerFacts.

Variable BASE_URL : str.
Variable net : Client.Network.

Lemma handleAnalyze_blank (p : Page) :
  forallb is_white_space (Store.document (store p)) = true ->
  handleAnalyze BASE_URL net p = (p, []).
Proof. intros H. unfold handleAnalyze. rewrite not_truthy_trim, H. reflexivity. Qed.

Lemma handleRiskScore_blank (p : Page) :
  forallb is_white_space (Store.document (store p)) = true ->
  handleRiskScore BASE_URL net p = (p, []).
Proof. intros H. unfold handleRiskScore. rewrite not_truthy_trim, H. reflexivity. Qed.

Lemma handleCompile_no_template (p : Page) :
  Store.templateId (store p) = [] -> handleCompile BASE_URL net p = (p, []).
Proof. intros H. unfold handleCompile. rewrite H. reflexivity. Qed.

Lemma handleAnalyze_settled (p : Page) :
  forallb is_white_space (Store.document (store p)) = false ->
  settled Store.type_analyze (js "Analysis failed.")
    (Client.analyze BASE_URL net (Store.document (store p)) (Store.language (store p))).1
    p (handleAnalyze BASE_URL net p).1.
Proof.
  intros H. unfold handleAnalyze. rewrite not_truthy_trim, H. simpl negb. cbv iota.
  destruct (Client.analyze _ _ _ _) as [[v|e] calls]; repeat split.
Qed.

Lemma handleRiskScore_settled (p : Page) :
  forallb is_white_space (Store.document (store p)) = false ->
  settled Store.type_risk (js "Risk scoring failed.")
    (Client.riskScore BASE_URL net (Store.document (store p))).1
    p (handleRiskScore BASE_URL net p).1.
Proof.
  intros H. unfold handleRiskScore. rewrite not_truthy_trim, H. simpl negb. cbv iota.
  destruct (Client.riskScore _ _ _) as [[v|e] calls]; repeat split.
Qed.

Lemma handleCompile_settled (p : Page) :
  Store.templateId (store p) <> [] ->
  settled Store.type_compile (js "Compilation failed.")
    (Client.compile BASE_URL net (Store.templateId (store p)) []).1
    p (handleCompile BASE_URL net p).1.
Proof.
  intros H. unfold handleCompile.
  destruct (Store.templateId (store p)) as [|c t] eqn:E; [congruence|]. simpl negb. cbv iota.
  destruct (Client.compile _ _ _ _) as [[v|e] calls]; repeat split.
Qed.

End HandlerFacts.

End ConsoleFacts.

(** C10.  A handler that gets past its guard ends with [loading = false],
    whether the client call returned or threw.  When the call threw, the
    stored result is the one from before and [error] is the thrown error's
    message (the handler's fallback text when the thrown value is not an
    [Error]); when it returned, the result is the new one. *)
Theorem handlers_leave_loading_false
  (BASE_URL : str) (net : Client.Network) (p : Console.Page) :
  let st := Console.store p in
  (truthy (trim (Store.document st)) = true ->
     let outcome := (Client.analyze BASE_URL net (Store.document st) (Store.language st)).1 in
     let p' := (Console.handleAnalyze BASE_URL net p).1 in
     Store.loading (Console.store p') = false
     /\ (forall e, outcome = Rejected e ->
           Store.result (Console.store p') = Store.result st
           /\ Console.error p' = Some (Console.message_of e (js "Analysis failed.")))
     /\ (forall v, outcome = Fulfilled v ->
           Store.result (Console.store p')
           = Some {| Store.type := Store.type_analyze; Store.data := v |}))
  /\ (truthy (trim (Store.document st)) = true ->
     let outcome := (Client.riskScore BASE_URL net (Store.document st)).1 in
     let p' := (Console.handleRiskScore BASE_URL net p).1 in
     Store.loading (Console.store p') = false
     /\ (forall e, outcome = Rejected e ->
           Store.result (Console.store p') = Store.result st
           /\ Console.error p' = Some (Console.message_of e (js "Risk scoring failed.")))
     /\ (forall v, outcome = Fulfilled v ->
           Store.result (Console.store p')
           = Some {| Store.type := Store.type_risk; Store.data := v |}))
  /\ (truthy (Store.templateId st) = true ->
     let outcome := (Client.compile BASE_URL net (Store.templateId st) []).1 in
     let p' := (Console.handleCompile BASE_URL net p).1 in
     Store.loading (Console.store p') = false
     /\ (forall e, outcome = Rejected e ->
           Store.result (Console.store p') = Store.result st
           /\ Console.error p' = Some (Console.message_of e (js "Compilation failed.")))
     /\ (forall v, outcome = Fulfilled v ->
           Store.result (Console.store p')
           = Some {| Store.type := Store.type_compile; Store.data := v |}))
  /\ (forall m fallback, Console.message_of (ErrorObject m) fallback = m).
Proof.
  intros st. subst st.
  assert (G : forall s, truthy (trim s) = true -> forallb is_white_space s = false).
  { intros s H. rewrite <- not_truthy_trim, H. reflexivity. }
  repeat apply conj.
  - intros H outcome p'.
    pose proof (ConsoleFacts.handleAnalyze_settled BASE_URL net p (G _ H)) as S.
    fold outcome p' in S. destruct S as (L & _ & _ & _ & _ & S). split; [exact L|].
    split; intros x Hx; rewrite Hx in S; tauto.
  - intros H outcome p'.
    pose proof (ConsoleFacts.handleRiskScore_settled BASE_URL net p (G _ H)) as S.
    fold outcome p' in S. destruct S as (L & _ & _ & _ & _ & S). split; [exact L|].
    split; intros x Hx; rewrite Hx in S; tauto.
  - intros H outcome p'.
    assert (Hne : Store.templateId (Console.store p) <> []).
    { intros E. rewrite E in H. discriminate. }
    pose proof (ConsoleFacts.handleCompile_settled BASE_URL net p Hne) as S.
    fold outcome p' in S. destruct S as (L & _ & _ & _ & _ & S). split; [exact L|].
    split; intros x Hx; rewrite Hx in S; tauto.
  - reflexivity.
Qed.

(** ** The engine: validation *)

Module ValidationFacts.
Import Engine.

Lemma supported_languages (l : str) :
  l ∈ SUPPORTED_LANGUAGES <-> l = js "en" \/ l = js "ja" \/ l = js "de" \/ l = js "fr".
Proof.
  unfold SUPPORTED_LANGUAGES. rewrite !elem_of_cons, elem_of_nil. tauto.
Qed.

Lemma analyze_unsupported cfg document lang :
  lang ∉ SUPPORTED_LANGUAGES -> analyze cfg document lang = Failed UnsupportedLanguage.
Proof. intros H. unfold analyze. rewrite bool_decide_eq_false_2; [reflexivity|exact H]. Qed.

Lemma analyze_blank cfg document lang :
  lang ∈ SUPPORTED_LANGUAGES -> is_blank document = true ->
  analyze cfg document lang = Failed EmptyDocument.
Proof.
  intros H B. unfold analyze. rewrite bool_decide_eq_true_2; [|exact H].
  simpl. rewrite B. reflexivity.
Qed.

Lemma analyze_accepts cfg document lang :
  lang ∈ SUPPORTED_LANGUAGES -> is_blank document = false ->
  exists r, analyze cfg document lang = Ok r.
Proof.
  intros H B. unfold analyze. rewrite bool_decide_eq_true_2; [|exact H].
  simpl. rewrite B. eauto.
Qed.

Lemma riskScore_blank cfg document :
  is_blank document = true -> riskScore cfg document = Failed EmptyDocument.
Proof. intros B. unfold riskScore. rewrite B. reflexivity. Qed.

Lemma is_blank_trim (document : str) : is_blank document = true <-> trim document = [].
Proof. unfold is_blank. symmetry. apply trim_nil. Qed.

End ValidationFacts.

(** C5.  Whatever the text, a language code outside en, ja, de, fr makes
    [analyze] fail with [UnsupportedLanguage], and no result comes back.
    The supported codes are exactly those four (the ones the console offers):
    with any of them a document that is not blank is analysed. *)
Theorem unsupported_language_is_rejected
  (cfg : Engine.Config) (document lang : str) :
  lang ∉ Engine.SUPPORTED_LANGUAGES ->
  Engine.analyze cfg document lang = Engine.Failed Engine.UnsupportedLanguage
  /\ (forall r, Engine.analyze cfg document lang <> Engine.Ok r)
  /\ (forall l, l ∈ Engine.SUPPORTED_LANGUAGES
                <-> l = js "en" \/ l = js "ja" \/ l = js "de" \/ l = js "fr")
  /\ Console.value <$> Console.LANGUAGES = Engine.SUPPORTED_LANGUAGES
  /\ (forall l text, l ∈ Engine.SUPPORTED_LANGUAGES -> Engine.is_blank text = false ->
        exists r, Engine.analyze cfg text l = Engine.Ok r).
Proof.
  intros H. rewrite (ValidationFacts.analyze_unsupported cfg document lang H).
  split; [reflexivity|]. split; [discriminate|].
  split; [exact ValidationFacts.supported_languages|].
  split; [reflexivity|]. intros l t. apply ValidationFacts.analyze_accepts.
Qed.

Lemma unsupported_language_is_rejected_witness :
  Engine.analyze Examples.example_config Examples.example_document (js "xx")
  = Engine.Failed Engine.UnsupportedLanguage.
Proof.
  refine (proj1 (unsupported_language_is_rejected
                   Examples.example_config Examples.example_document (js "xx") _)).
  apply (bool_decide_unpack _). vm_compute. exact I.
Defined.

(** A blank document.  In the modelled engine it makes [analyze] fail with
    [EmptyDocument] for every supported language, and [riskScore] fail with
    [EmptyDocument]; in the console, with a blank document in the store,
    [handleAnalyze] and [handleRiskScore] return at once, leaving the page as
    it was and making no request. *)
Lemma blank_document_is_rejected (document : str) :
  Engine.is_blank document = true ->
  trim document = []
  /\ (forall cfg lang, lang ∈ Engine.SUPPORTED_LANGUAGES ->
        Engine.analyze cfg document lang = Engine.Failed Engine.EmptyDocument)
  /\ (forall cfg, Engine.riskScore cfg document = Engine.Failed Engine.EmptyDocument)
  /\ (forall BASE_URL net p, Store.document (Console.store p) = document ->
        Console.handleAnalyze BASE_URL net p = (p, [])
        /\ Console.handleRiskScore BASE_URL net p = (p, [])).
Proof.
  intros B. split; [apply ValidationFacts.is_blank_trim; exact B|].
  split; [intros cfg lang H; apply ValidationFacts.analyze_blank; assumption|].
  split; [intros cfg; apply ValidationFacts.riskScore_blank; assumption|].
  intros BASE_URL net p E. subst document. split.
  - apply ConsoleFacts.handleAnalyze_blank. exact B.
  - apply ConsoleFacts.handleRiskScore_blank. exact B.
Qed.

(** Three spaces, a tab and an ideographic space. *)
Lemma blank_document_is_rejected_witness :
  Engine.analyze Examples.example_config [32; 32; 32; 9; 12288]%N (js "ja")
  = Engine.Failed Engine.EmptyDocument.
Proof.
  refine (proj1 (proj2 (blank_document_is_rejected [32; 32; 32; 9; 12288]%N _))
            Examples.example_config (js "ja") _).
  - reflexivity.
  - apply (bool_decide_unpack _). vm_compute. exact I.
Defined.

(** The modelled [analyze] looks at the language before it looks at the
    document, so that a blank document in a language outside the supported
    set is turned away for its language.  The specification names both
    failures and does not say which comes first. *)
Lemma blank_document_unsupported_language :
  Engine.is_blank [] = true
  /\ Engine.analyze Examples.example_config [] (js "xx")
     <> Engine.Failed Engine.EmptyDocument.
Proof. split; [reflexivity|]. vm_compute. discriminate. Qed.

(** ** The engine: aggregation *)

Module AggregationFacts.
Import Engine.

Lemma Qmax_cases (a b : Q) : Qmax a b = a \/ Qmax a b = b.
Proof.
  unfold Qmax, GenericMinMax.gmax. destruct (a ?= b)%Q; auto.
Qed.

Lemma clamp01_range (x : Q) : (0 <= clamp01 x)%Q /\ (clamp01 x <= 1)%Q.
Proof.
  unfold clamp01. split.
  - apply Q.le_max_l.
  - apply Q.max_lub; [discriminate|apply Q.le_min_l].
Qed.

Lemma clauses_of_range p t c : c ∈ clauses_of p t -> (0 <= risk_score c)%Q /\ (risk_score c <= 1)%Q.
Proof.
  intros Hc. apply elem_of_lookup_imap_1 in Hc as (n & sp & -> & _).
  apply clamp01_range.
Qed.

Lemma critical_floor_raised (cs : list Clause) (c : Clause) :
  c ∈ cs -> (7 # 10 <= risk_score c)%Q -> critical_floor cs = (7 # 10)%Q.
Proof.
  intros Hc Hs. unfold critical_floor.
  assert (E : existsb (fun c => Qle_bool (7 # 10) (risk_score c)) cs = true).
  { apply existsb_exists. exists c. split; [apply list_elem_of_In; exact Hc|].
    apply Qle_bool_iff. exact Hs. }
  rewrite E. reflexivity.
Qed.

Lemma document_risk_score_floor (cs : list Clause) (c : Clause) :
  c ∈ cs -> (7 # 10 <= risk_score c)%Q -> (7 # 10 <= document_risk_score cs)%Q.
Proof.
  intros Hc Hs. unfold document_risk_score.
  rewrite (critical_floor_raised cs c Hc Hs). apply Q.le_max_r.
Qed.

(** The largest of a list of scores, 0 for the empty list. *)
Lemma largest_upper (l : list Q) (x : Q) : x ∈ l -> (x <= foldr Qmax 0 l)%Q.
Proof.
  induction l as [|y l IH]; [intros H; inversion H|].
  rewrite elem_of_cons. simpl. intros [->|H].
  - apply Q.le_max_l.
  - eapply Qle_trans; [apply IH; exact H|apply Q.le_max_r].
Qed.

Lemma largest_attained (l : list Q) :
  l <> [] -> (forall x, x ∈ l -> (0 <= x)%Q) ->
  exists x, x ∈ l /\ (foldr Qmax 0 l == x)%Q.
Proof.
  induction l as [|y l IH]; [congruence|]. intros _ Hpos. simpl.
  destruct (Qmax_cases y (foldr Qmax 0%Q l)) as [E|E].
  - exists y. split; [left|rewrite E; reflexivity].
  - destruct l as [|z l'].
    + exists y. split; [left|]. simpl in *.
      apply Qle_antisym; [|apply Q.le_max_l].
      rewrite E. apply Hpos. left.
    + destruct IH as (x & Hx & Ex); [discriminate|intros x Hx; apply Hpos; right; exact Hx|].
      exists x. split; [right; exact Hx|]. rewrite E. exact Ex.
Qed.

Section Factors.

Variable cfg : Config.
Variable cs : list Clause.

Lemma factor_score_upper (f : Factor) (c : Clause) :
  c ∈ cs -> factor_of cfg (clause_type c) = f -> (risk_score c <= factor_score cfg f cs)%Q.
Proof.
  intros Hc Hf. unfold factor_score. apply largest_upper.
  apply list_elem_of_fmap_2. apply list_elem_of_filter. auto.
Qed.

Lemma factor_score_default (f : Factor) :
  (forall c, c ∈ cs -> factor_of cfg (clause_type c) <> f) -> factor_score cfg f cs = 0%Q.
Proof.
  intros H. unfold factor_score.
  destruct (filter (fun c => factor_of cfg (clause_type c) = f) cs) as [|c l] eqn:E;
    [reflexivity|].
  assert (Hin : c ∈ filter (fun c => factor_of cfg (clause_type c) = f) cs)
    by (rewrite E; left).
  apply list_elem_of_filter in Hin as [Hf Hc]. destruct (H c Hc Hf).
Qed.

Lemma factor_score_attained (f : Factor) (c : Clause) :
  (forall c, c ∈ cs -> (0 <= risk_score c)%Q) ->
  c ∈ cs -> factor_of cfg (clause_type c) = f ->
  exists c', c' ∈ cs /\ factor_of cfg (clause_type c') = f
             /\ (factor_score cfg f cs == risk_score c')%Q.
Proof.
  intros Hpos Hc Hf. unfold factor_score.
  destruct (largest_attained
              (risk_score <$> filter (fun c => factor_of cfg (clause_type c) = f) cs))
    as (x & Hx & Ex).
  - intros E. apply fmap_nil_inv in E.
    assert (Hin : c ∈ filter (fun c => factor_of cfg (clause_type c) = f) cs)
      by (apply list_elem_of_filter; auto).
    rewrite E in Hin. inversion Hin.
  - intros x Hx. apply list_elem_of_fmap in Hx as (c' & -> & Hc').
    apply list_elem_of_filter in Hc' as [_ Hc']. apply Hpos. exact Hc'.
  - apply list_elem_of_fmap in Hx as (c' & -> & Hc').
    apply list_elem_of_filter in Hc' as [Hf' Hc'].
    exists c'. split; [assumption|]. split; [assumption|exact Ex].
Qed.

End Factors.

End AggregationFacts.

(** C3.  When [analyze] accepts a document and one of its clauses has a
    score of at least 0.7, the document's score is at least 0.7, whatever
    the other clauses score: it is the larger of the length-weighted average
    of the clause scores and the floor, and the floor is then 0.7. *)
Theorem critical_clause_floors_document_score
  (cfg : Engine.Config) (document lang : str) (r : Engine.AnalysisResult) :
  Engine.analyze cfg document lang = Engine.Ok r ->
  (exists c, c ∈ Engine.clauses r /\ (7 # 10 <= Engine.risk_score c)%Q) ->
  (7 # 10 <= Engine.result_risk_score r)%Q
  /\ Engine.result_risk_score r
     = Qmax (Engine.weighted_average (Engine.clauses r))
            (Engine.critical_floor (Engine.clauses r))
  /\ Engine.critical_floor (Engine.clauses r) = (7 # 10)%Q
  /\ Engine.level (Engine.result_risk_score r) = critical.
Proof.
  unfold Engine.analyze.
  destruct (negb _); [discriminate|]. destruct (Engine.is_blank _); [discriminate|].
  intros [= <-] (c & Hc & Hs). simpl in *.
  pose proof (AggregationFacts.document_risk_score_floor _ c Hc Hs) as F.
  split; [exact F|]. split; [reflexivity|].
  split; [exact (AggregationFacts.critical_floor_raised _ c Hc Hs)|].
  apply EngineFacts.level_bands. exact F.
Qed.

(** The example document: one critical sentence, three that score 0, and a
    weighted average of 189/745. *)
Lemma critical_clause_floors_document_score_witness :
  exists r,
    Engine.analyze Examples.example_config Examples.example_document (js "en") = Engine.Ok r
    /\ (Engine.weighted_average (Engine.clauses r) < 3 # 10)%Q
    /\ (7 # 10 <= Engine.result_risk_score r)%Q.
Proof.
  eexists. split; [reflexivity|]. split; [vm_compute; reflexivity|].
  refine (proj1 (critical_clause_floors_document_score
                   Examples.example_config Examples.example_document (js "en") _ eq_refl _)).
  eexists. split.
  - apply (list_elem_of_lookup_2 _ 1). reflexivity.
  - vm_compute. discriminate.
Defined.

(** The breakdown of the modelled [riskScore] follows the configuration:
    it lists the configured factors, each once and with its configured
    weight, whatever the document says.  A factor's score bounds the score of
    every clause mapped to it and is the score of one of them, or 0 when no
    clause is mapped to it; the overall score is the sum of weight times
    score.  What the weights sum to is a matter of the configured weights,
    which neither the sources nor the specification give. *)
Lemma risk_factor_breakdown_follows_configuration
  (cfg : Engine.Config) (document : str) (r : Engine.RiskScoreResult) :
  Engine.riskScore cfg document = Engine.Ok r ->
  let t := Engine.normalize cfg document in
  let cs := Engine.clauses_of (Engine.profile cfg (Engine.detect_language cfg t)) t in
  Engine.weight <$> Engine.risk_factors r = Engine.factor_weight cfg <$> Engine.FACTORS
  /\ Engine.factor <$> Engine.risk_factors r = Engine.FACTORS
  /\ (forall f, f ∈ Engine.risk_factors r ->
        Engine.weight f = Engine.factor_weight cfg (Engine.factor f)
        /\ (forall c, c ∈ cs -> Engine.factor_of cfg (Engine.clause_type c) = Engine.factor f ->
              (Engine.risk_score c <= Engine.score f)%Q)
        /\ ((exists c, c ∈ cs /\ Engine.factor_of cfg (Engine.clause_type c) = Engine.factor f
                       /\ (Engine.score f == Engine.risk_score c)%Q)
            \/ ((forall c, c ∈ cs ->
                   Engine.factor_of cfg (Engine.clause_type c) <> Engine.factor f)
                /\ Engine.score f = 0%Q)))
  /\ Engine.overall_score r
     = Engine.Qsum ((fun f => Engine.weight f * Engine.score f)%Q <$> Engine.risk_factors r).
Proof.
  intros H t cs. revert H. unfold Engine.riskScore.
  destruct (Engine.is_blank _); [discriminate|]. intros [= <-].
  cbn [Engine.risk_factors Engine.overall_score]. fold t. fold cs.
  split; [reflexivity|]. split; [reflexivity|]. split; [|reflexivity].
  intros f Hf. change (f ∈ Engine.risk_factor cfg cs <$> Engine.FACTORS) in Hf.
  apply list_elem_of_fmap in Hf as (k & -> & _). cbn.
  split; [reflexivity|]. split.
  - intros c Hc Hk. apply AggregationFacts.factor_score_upper; assumption.
  - destruct (decide (Exists (fun c => Engine.factor_of cfg (Engine.clause_type c) = k) cs))
      as [E|N]; rewrite Exists_exists in *; [destruct E as (c & Hc & Hk)|].
    + left.
      destruct (AggregationFacts.factor_score_attained cfg cs k c) as (c' & H1 & H2 & H3).
      * intros c0 H0. apply (AggregationFacts.clauses_of_range _ _ _ H0).
      * exact Hc.
      * exact Hk.
      * exists c'. auto.
    + right. split.
      * intros c Hc Hk. apply N. exists c. auto.
      * apply AggregationFacts.factor_score_default. intros c Hc Hk. apply N. exists c. auto.
Qed.

Example risk_factor_breakdown_on_the_example :
  exists r,
    Engine.riskScore Examples.example_config Examples.example_document = Engine.Ok r
    /\ Engine.factor <$> Engine.risk_factors r = Engine.FACTORS
    /\ (Engine.overall_score r == 27 # 100)%Q.
Proof. eexists. split; [reflexivity|]. split; reflexivity. Qed.

(** ** The engine: templates *)

Module TemplateFacts.
Import Engine.

Lemma starts_with_spec (p s : str) : starts_with p s = true -> s = p ++ drop (length p) s.
Proof.
  revert s. induction p as [|a p IH]; intros s; [reflexivity|].
  destruct s as [|b s]; simpl; [discriminate|].
  intros H. apply andb_prop in H as [E H]. apply N.eqb_eq in E. subst b.
  f_equal. apply IH. exact H.
Qed.

Lemma name_prefix_spec (s : str) : s = name_prefix s ++ drop (length (name_prefix s)) s.
Proof.
  induction s as [|c s IH]; simpl; [reflexivity|].
  destruct (is_name_char c); simpl; [f_equal; exact IH|reflexivity].
Qed.

Lemma placeholder_at_Some (s n : str) :
  placeholder_at s = Some n -> s = marker n ++ drop (length n + 4) s.
Proof.
  unfold placeholder_at, marker.
  destruct (starts_with OPEN s) eqn:Ho; [|discriminate].
  destruct (truthy _ && starts_with CLOSE _) eqn:Hc; [|discriminate].
  intros [= <-]. apply andb_prop in Hc as [_ Hc].
  apply starts_with_spec in Ho, Hc. change (length OPEN) with 2 in Ho.
  change (length CLOSE) with 2 in Hc. rewrite !drop_drop in Hc.
  set (n := name_prefix (drop 2 s)) in *.
  replace (length n + 4) with (2 + length n + 2) by lia.
  rewrite <- !app_assoc, <- Hc, <- drop_drop. unfold n.
  rewrite <- name_prefix_spec. exact Ho.
Qed.

Lemma untokenize_tokenize_from (s : str) (k : nat) :
  untokenize (tokenize_from k s) = drop k s.
Proof.
  revert k. induction s as [|c rest IH]; intros k; [destruct k; reflexivity|].
  destruct k as [|k]; [|exact (IH k)].
  cbn [tokenize_from]. destruct (placeholder_at (c :: rest)) as [n|] eqn:E.
  - apply placeholder_at_Some in E. unfold untokenize in *. cbn [fmap list_fmap concat].
    rewrite IH. replace (length n + 4) with (S (length n + 3)) in E by lia.
    rewrite drop_0. exact (eq_sym E).
  - unfold untokenize in *. cbn [fmap list_fmap concat]. rewrite IH. reflexivity.
Qed.

(** Reading a body into tokens loses nothing. *)
Lemma untokenize_tokenize (s : str) : untokenize (tokenize s) = s.
Proof. unfold tokenize. rewrite untokenize_tokenize_from. apply drop_0. Qed.

Lemma substitute_unbound (vars : gmap str str) (ts : list Token) :
  (forall n, n ∈ placeholders ts -> vars !! n = None) -> substitute vars ts = untokenize ts.
Proof.
  unfold substitute, untokenize, placeholders.
  induction ts as [|t ts IH]; intros H; [reflexivity|]. cbn [fmap list_fmap concat].
  rewrite IH.
  - destruct t as [c|n]; [reflexivity|]. rewrite (H n); [reflexivity|]. left.
  - intros n Hn. apply H. destruct t; [exact Hn|right; exact Hn].
Qed.

Lemma lookup_known (cfg : Config) (i : str) :
  i ∈ TEMPLATE_IDS -> lookup cfg i = Ok (make_template i (template_details cfg i)).
Proof.
  unfold TEMPLATE_IDS. rewrite !elem_of_cons, elem_of_nil.
  intros [->|[->|[->|[->|[->|[->|[->|[]]]]]]]]; reflexivity.
Qed.

Lemma lookup_unknown (cfg : Config) (i : str) :
  i ∉ TEMPLATE_IDS -> lookup cfg i = Failed TemplateNotFound.
Proof.
  intros H. unfold lookup.
  destruct (List.find _ _) as [t|] eqn:E; [|reflexivity].
  apply find_some in E as [Hin Ht]. apply bool_decide_eq_true_1 in Ht.
  apply list_elem_of_In in Hin. unfold registry in Hin.
  apply list_elem_of_fmap in Hin as (j & -> & Hj). simpl in Ht. subst j. contradiction.
Qed.

Lemma registry_ids (cfg : Config) : template_id <$> registry cfg = TEMPLATE_IDS.
Proof. reflexivity. Qed.

End TemplateFacts.

(** C2.  For a known template id [compile] succeeds whatever the variable
    map.  The template body is a sequence of literal code units and
    placeholders; the compiled document is that sequence with each bound
    placeholder replaced by its value and each unbound one left as written.
    [missing_variables] is the list of required variables that the map does
    not bind, in declaration order, and [variables_applied] is the number of
    distinct placeholders of the body that the map binds.  With the empty map
    nothing is applied, every required variable is missing and the document
    is the body; for an NDA template with 4 required variables that is 0
    applied and 4 missing. *)
Theorem compile_never_rejects_missing_variables
  (cfg : Engine.Config) (i : str) (vars : gmap str str) :
  i ∈ Engine.TEMPLATE_IDS ->
  let t := Engine.make_template i (Engine.template_details cfg i) in
  let ts := Engine.tokenize (Engine.body t) in
  exists r,
    Engine.compile cfg i vars = Engine.Ok r
    /\ Engine.compiled_template_id r = i
    /\ Engine.untokenize ts = Engine.body t
    /\ Engine.compiled_document r = Engine.substitute vars ts
    /\ ((forall n, n ∈ Engine.placeholders ts -> vars !! n = None) ->
          Engine.compiled_document r = Engine.body t)
    /\ Engine.missing_variables r
       = filter (fun v => vars !! v = None) (Engine.required_variables t)
    /\ (forall v, v ∈ Engine.missing_variables r
                  <-> v ∈ Engine.required_variables t /\ vars !! v = None)
    /\ (exists applied,
          NoDup applied
          /\ (forall n, n ∈ applied <-> n ∈ Engine.placeholders ts /\ is_Some (vars !! n))
          /\ Engine.variables_applied r = length applied)
    /\ (vars = ∅ ->
          Engine.variables_applied r = 0
          /\ Engine.missing_variables r = Engine.required_variables t
          /\ Engine.compiled_document r = Engine.body t
          /\ (i = js "nda" -> length (Engine.required_variables t) = 4 ->
                length (Engine.missing_variables r) = 4)).
Proof.
  intros Hi t ts. unfold Engine.compile.
  rewrite (TemplateFacts.lookup_known cfg i Hi). fold t. fold ts.
  eexists. split; [reflexivity|]. cbn [Engine.compiled_template_id Engine.compiled_document
    Engine.missing_variables Engine.variables_applied].
  assert (U : Engine.untokenize ts = Engine.body t) by apply TemplateFacts.untokenize_tokenize.
  split; [reflexivity|]. split; [exact U|]. split; [reflexivity|].
  split; [intros H; rewrite <- U; apply TemplateFacts.substitute_unbound; exact H|].
  split; [reflexivity|]. split; [intros v; rewrite list_elem_of_filter; tauto|].
  split.
  - eexists. split; [|split; [|reflexivity]].
    + apply NoDup_filter, NoDup_remove_dups.
    + intros n. rewrite list_elem_of_filter, elem_of_remove_dups. tauto.
  - intros ->.
    assert (F : forall l : list str, filter (fun n => is_Some ((∅ : gmap str str) !! n)) l = []).
    { induction l as [|x l IH]; [reflexivity|].
      rewrite filter_cons_False; [exact IH|]. rewrite lookup_empty. apply is_Some_None. }
    assert (M : forall l : list str, filter (fun v => (∅ : gmap str str) !! v = None) l = l).
    { induction l as [|x l IH]; [reflexivity|].
      rewrite filter_cons_True by apply lookup_empty. f_equal. exact IH. }
    rewrite F, M. split; [reflexivity|]. split; [reflexivity|]. split; [|auto].
    rewrite <- U. apply TemplateFacts.substitute_unbound. intros n _. apply lookup_empty.
Qed.

(** The NDA of the example configuration, compiled with no variables: four
    required variables missing, nothing applied, the body returned as is. *)
Lemma compile_never_rejects_missing_variables_witness :
  exists r,
    Engine.compile Examples.example_config (js "nda") ∅ = Engine.Ok r
    /\ Engine.variables_applied r = 0
    /\ length (Engine.missing_variables r) = 4
    /\ Engine.compiled_document r = Engine.details_body Examples.nda_details.
Proof.
  destruct (compile_never_rejects_missing_variables Examples.example_config (js "nda") ∅)
    as (r & H1 & _ & _ & _ & _ & _ & _ & _ & H2).
  - apply (bool_decide_unpack _). vm_compute. exact I.
  - exists r. destruct (H2 eq_refl) as (A & _ & D & L).
    split; [exact H1|]. split; [exact A|]. split; [apply L; reflexivity|exact D].
Defined.

(** The documented request: all four variables given. *)
Example compile_nda_all_given :
  let vars : gmap str str :=
    <[js "party_a" := js "Acme Corp"]> (<[js "party_b" := js "Beta Inc"]>
      (<[js "effective_date" := js "2026-03-01"]> (<[js "jurisdiction" := js "California"]> ∅))) in
  exists r,
    Engine.compile Examples.example_config (js "nda") vars = Engine.Ok r
    /\ Engine.variables_applied r = 4
    /\ Engine.missing_variables r = []
    /\ Engine.compiled_document r
       = js "NON-DISCLOSURE AGREEMENT: This Agreement is made between Acme Corp and Beta Inc, effective 2026-03-01, under the laws of California. Signed for Acme Corp by {{signatory}}.".
Proof. eexists. repeat split; vm_compute; reflexivity. Qed.

(** A value that looks like a placeholder is inserted as it is and not
    expanded again. *)
Example compile_value_not_rescanned :
  exists r,
    Engine.compile Examples.example_config (js "sla")
      (<[js "party_a" := js "{{party_b}}"]> (<[js "party_b" := js "B"]> ∅)) = Engine.Ok r
    /\ Engine.compiled_document r = js "Between {{party_b}} and B.".
Proof. eexists. split; vm_compute; reflexivity. Qed.

(** An id outside the catalog is the one failure of [compile]. *)
Lemma compile_unknown_template (cfg : Engine.Config) (i : str) (vars : gmap str str) :
  i ∉ Engine.TEMPLATE_IDS -> Engine.compile cfg i vars = Engine.Failed Engine.TemplateNotFound.
Proof.
  intros H. unfold Engine.compile. rewrite (TemplateFacts.lookup_unknown cfg i H). reflexivity.
Qed.

(** C7.  [listTemplates] returns the seven configured templates, with ids
    nda, sla, dpa, tos, privacy, employment, license in that order, and a
    count of 7, for every configuration; it returns a response and has no
    failure.  These are the ids the console offers, in the same order. *)
Theorem listTemplates_returns_the_seven (cfg : Engine.Config) :
  let response := Engine.listTemplates cfg in
  Engine.info_id <$> Engine.templates response
  = [js "nda"; js "sla"; js "dpa"; js "tos"; js "privacy"; js "employment"; js "license"]
  /\ Engine.count response = 7
  /\ length (Engine.templates response) = 7
  /\ Engine.templates response
     = (fun i => Engine.info (Engine.make_template i (Engine.template_details cfg i)))
         <$> Engine.TEMPLATE_IDS
  /\ Console.value <$> Console.TEMPLATES = Engine.info_id <$> Engine.templates response.
Proof. repeat split. Qed.

(** ** The schema: cascading deletes *)

Module SchemaFacts.
Import Schema.

Lemma references_spec (fk : option uuid) (keys : list uuid) :
  references fk keys = true <-> forall k, fk = Some k -> k ∈ keys.
Proof.
  destruct fk as [k|]; simpl.
  - rewrite bool_decide_eq_true. split; [intros H k' [= <-]; exact H|auto].
  - split; [discriminate|reflexivity].
Qed.

Lemma points_into_false (fk : option uuid) (keys : list uuid) :
  points_into fk keys = false <-> forall k, fk = Some k -> k ∉ keys.
Proof.
  destruct fk as [k|]; simpl.
  - rewrite bool_decide_eq_false. split; [intros H k' [= <-]; exact H|auto].
  - split; [discriminate|reflexivity].
Qed.

Section Delete.

Variable P : documents_row -> bool.
Variable db : Database.

Let removed : list uuid := doc_id <$> filter (fun d => P d = true) (documents db).

(** A key of [documents] that is not among the removed ones is still a key
    afterwards. *)
Lemma surviving_key (k : uuid) :
  k ∈ document_ids db -> k ∉ removed -> k ∈ document_ids (delete_documents P db).
Proof.
  unfold document_ids, removed. cbn [documents delete_documents].
  rewrite !list_elem_of_fmap. intros (d & -> & Hd) Hn. exists d. split; [reflexivity|].
  apply list_elem_of_filter. split; [|exact Hd].
  destruct (P d) eqn:E; [|reflexivity]. exfalso. apply Hn.
  exists d. split; [reflexivity|]. apply list_elem_of_filter. auto.
Qed.

Lemma delete_documents_integrity :
  referential_integrity db -> referential_integrity (delete_documents P db).
Proof.
  intros [Ha Hc]. split; intros r k Hr Hk; cbn [analysis_results clauses delete_documents] in Hr;
    apply list_elem_of_filter in Hr as [Hp Hr]; apply surviving_key.
  - exact (Ha r k Hr Hk).
  - apply (proj1 (points_into_false _ _) Hp). exact Hk.
  - exact (Hc r k Hr Hk).
  - apply (proj1 (points_into_false _ _) Hp). exact Hk.
Qed.

Lemma delete_documents_documents (d : documents_row) :
  d ∈ documents (delete_documents P db) <-> P d = false /\ d ∈ documents db.
Proof.
  cbn [documents delete_documents].
  exact (list_elem_of_filter (fun d => P d = false) (documents db) d).
Qed.

Lemma delete_documents_analysis_results (r : analysis_results_row) :
  r ∈ analysis_results (delete_documents P db)
  <-> (forall k, ar_document_id r = Some k -> k ∉ removed) /\ r ∈ analysis_results db.
Proof.
  cbn [analysis_results delete_documents]. rewrite list_elem_of_filter, points_into_false.
  reflexivity.
Qed.

Lemma delete_documents_clauses (r : clauses_row) :
  r ∈ clauses (delete_documents P db)
  <-> (forall k, cl_document_id r = Some k -> k ∉ removed) /\ r ∈ clauses db.
Proof.
  cbn [clauses delete_documents]. rewrite list_elem_of_filter, points_into_false.
  reflexivity.
Qed.

End Delete.

Lemma removed_by_id (id k : uuid) (db : Database) :
  k ∈ doc_id <$> filter (fun d => bool_decide (doc_id d = id) = true) (documents db)
  <-> k = id /\ id ∈ document_ids db.
Proof.
  unfold document_ids. rewrite !list_elem_of_fmap. split.
  - intros (d & -> & Hd). apply list_elem_of_filter in Hd as [E Hd].
    apply bool_decide_eq_true_1 in E. split; [exact E|]. exists d. auto.
  - intros [-> (d & E & Hd)]. exists d. split; [exact E|].
    apply list_elem_of_filter. split; [|exact Hd]. apply bool_decide_eq_true_2. auto.
Qed.

Lemma insert_document_integrity row db :
  referential_integrity db -> referential_integrity (insert_document row db).
Proof.
  intros [Ha Hc]. unfold insert_document. destruct (_ && _); [|split; assumption].
  split; intros r k Hr Hk; unfold document_ids; cbn [documents analysis_results clauses] in *;
    rewrite fmap_app; apply elem_of_app; left; [exact (Ha r k Hr Hk)|exact (Hc r k Hr Hk)].
Qed.

Lemma insert_analysis_result_integrity row db :
  referential_integrity db -> referential_integrity (insert_analysis_result row db).
Proof.
  intros [Ha Hc]. unfold insert_analysis_result.
  destruct (_ && _) eqn:E; [|split; assumption].
  apply andb_prop in E as [_ E].
  apply andb_prop in E as [E _]. apply andb_prop in E as [E _]. apply andb_prop in E as [_ E].
  split; [|exact Hc]. intros r k Hr Hk. cbn [analysis_results] in Hr.
  apply elem_of_app in Hr as [Hr|Hr]; [exact (Ha r k Hr Hk)|].
  apply list_elem_of_singleton in Hr. subst r.
  exact (proj1 (references_spec _ _) E k Hk).
Qed.

Lemma insert_clause_integrity row db :
  referential_integrity db -> referential_integrity (insert_clause row db).
Proof.
  intros [Ha Hc]. unfold insert_clause.
  destruct (_ && _) eqn:E; [|split; assumption].
  apply andb_prop in E as [_ E].
  apply andb_prop in E as [_ E].
  split; [exact Ha|]. intros r k Hr Hk. cbn [clauses] in Hr.
  apply elem_of_app in Hr as [Hr|Hr]; [exact (Hc r k Hr Hk)|].
  apply list_elem_of_singleton in Hr. subst r.
  exact (proj1 (references_spec _ _) E k Hk).
Qed.

Lemma delete_user_integrity id db :
  referential_integrity db -> referential_integrity (delete_user id db).
Proof.
  intros H. unfold delete_user.
  apply (delete_documents_integrity (fun d => bool_decide (doc_user_id d = Some id))) in H.
  exact H.
Qed.

Lemma exec_integrity (st : Statement) (db : Database) :
  referential_integrity db -> referential_integrity (exec st db).
Proof.
  intros H. destruct st as [id|row|row|row|id|id|P|id|id]; cbn [exec].
  - destruct (_ || _); exact H.
  - apply insert_document_integrity, H.
  - apply insert_analysis_result_integrity, H.
  - apply insert_clause_integrity, H.
  - apply delete_user_integrity, H.
  - apply delete_documents_integrity, H.
  - apply delete_documents_integrity, H.
  - destruct H as [Ha Hc]. split; [|exact Hc]. intros r k Hr Hk.
    cbn [analysis_results] in Hr. apply list_elem_of_filter in Hr as [_ Hr].
    exact (Ha r k Hr Hk).
  - destruct H as [Ha Hc]. split; [exact Ha|]. intros r k Hr Hk.
    cbn [clauses] in Hr. apply list_elem_of_filter in Hr as [_ Hr].
    exact (Hc r k Hr Hk).
Qed.

Lemma empty_integrity : referential_integrity empty.
Proof. split; intros r k Hr; inversion Hr. Qed.

(** Every database that the statements can build keeps its references. *)
Lemma run_integrity (script : list Statement) : referential_integrity (run script).
Proof.
  unfold run. generalize empty_integrity. generalize empty.
  induction script as [|st script IH]; intros db H; [exact H|].
  simpl. apply IH. apply exec_integrity. exact H.
Qed.

End SchemaFacts.

Module CascadeFacts.
Import Schema.

Lemma filter_agree {A} (P Q : A -> Prop) `{!forall x, Decision (P x)}
    `{!forall x, Decision (Q x)} (l : list A) :
  (forall x, x ∈ l -> (P x <-> Q x)) -> filter P l = filter Q l.
Proof.
  induction l as [|x l IH]; intros Hpq; [reflexivity|].
  assert (Hx : P x <-> Q x) by (apply Hpq; left).
  rewrite !filter_cons, IH by (intros y Hy; apply Hpq; right; exact Hy).
  destruct (decide (P x)), (decide (Q x)); tauto.
Qed.

Section Delete.

Variable P : documents_row -> bool.
Variable db : Database.

(** The keys a delete removes are those of the documents that meet its
    condition. *)
Lemma removed_keys (k : uuid) :
  k ∈ doc_id <$> filter (fun d => P d = true) (documents db)
  <-> exists d, d ∈ documents db /\ P d = true /\ doc_id d = k.
Proof.
  rewrite list_elem_of_fmap. split.
  - intros (d & -> & Hd). apply list_elem_of_filter in Hd as [Hp Hd]. eauto.
  - intros (d & Hd & Hp & <-). exists d. split; [reflexivity|].
    apply list_elem_of_filter. auto.
Qed.

(** Which rows a delete leaves: those that were there and reference none of
    the documents removed. *)
Lemma analysis_results_left (r : analysis_results_row) :
  r ∈ analysis_results (delete_documents P db)
  <-> r ∈ analysis_results db
      /\ forall d, d ∈ documents db -> P d = true -> ar_document_id r <> Some (doc_id d).
Proof.
  rewrite SchemaFacts.delete_documents_analysis_results. split.
  - intros [H Hr]. split; [exact Hr|]. intros d Hd Hp E.
    apply (H _ E). apply removed_keys. eauto.
  - intros [Hr H]. split; [|exact Hr]. intros k E Hk.
    apply removed_keys in Hk as (d & Hd & Hp & <-). exact (H d Hd Hp E).
Qed.

Lemma clauses_left (r : clauses_row) :
  r ∈ clauses (delete_documents P db)
  <-> r ∈ clauses db
      /\ forall d, d ∈ documents db -> P d = true -> cl_document_id r <> Some (doc_id d).
Proof.
  rewrite SchemaFacts.delete_documents_clauses. split.
  - intros [H Hr]. split; [exact Hr|]. intros d Hd Hp E.
    apply (H _ E). apply removed_keys. eauto.
  - intros [Hr H]. split; [|exact Hr]. intros k E Hk.
    apply removed_keys in Hk as (d & Hd & Hp & <-). exact (H d Hd Hp E).
Qed.

End Delete.

(** In a database that keeps its references, the delete of one document
    leaves each table as it was but for the rows of that document. *)
Lemma delete_document_tables (id : uuid) (db : Database) :
  referential_integrity db ->
  users (delete_document id db) = users db
  /\ documents (delete_document id db) = filter (fun d => doc_id d <> id) (documents db)
  /\ analysis_results (delete_document id db)
     = filter (fun r => ar_document_id r <> Some id) (analysis_results db)
  /\ clauses (delete_document id db)
     = filter (fun r => cl_document_id r <> Some id) (clauses db).
Proof.
  intros [RA RC]. unfold delete_document, delete_documents.
  cbn [users documents analysis_results clauses].
  split; [reflexivity|]. split; [|split]; apply filter_agree.
  - intros d _. rewrite bool_decide_eq_false. reflexivity.
  - intros r Hr. rewrite SchemaFacts.points_into_false. split.
    + intros H E. apply (H _ E). apply SchemaFacts.removed_by_id.
      split; [reflexivity|exact (RA r id Hr E)].
    + intros H k E Hk. apply SchemaFacts.removed_by_id in Hk as [-> _]. exact (H E).
  - intros r Hr. rewrite SchemaFacts.points_into_false. split.
    + intros H E. apply (H _ E). apply SchemaFacts.removed_by_id.
      split; [reflexivity|exact (RC r id Hr E)].
    + intros H k E Hk. apply SchemaFacts.removed_by_id in Hk as [-> _]. exact (H E).
Qed.

End CascadeFacts.

(** C8.  In any database built by the schema's statements, deleting the
    document with a given id removes it together with every
    [analysis_results] row and every [clauses] row whose [document_id] is
    that id, and nothing else: each table afterwards is the table before
    without those rows, no row is altered, and the users are untouched.
    Afterwards every [document_id] that is not null is the id of a document
    that is present.  A delete with any condition removes the documents that
    meet it and exactly the rows that reference one of them, and it and the
    removal of a user, which cascades through the user's documents, keep the
    references whole. *)
Theorem deleting_a_document_cascades (script : list Schema.Statement) (id : Schema.uuid) :
  let db := Schema.run script in
  let db' := Schema.delete_document id db in
  (id ∉ Schema.document_ids db')
  /\ (forall r, r ∈ Schema.analysis_results db' -> Schema.ar_document_id r <> Some id)
  /\ (forall r, r ∈ Schema.clauses db' -> Schema.cl_document_id r <> Some id)
  /\ (forall d, d ∈ Schema.documents db -> Schema.doc_id d <> id -> d ∈ Schema.documents db')
  /\ (forall r, r ∈ Schema.analysis_results db -> Schema.ar_document_id r <> Some id ->
        r ∈ Schema.analysis_results db')
  /\ (forall r, r ∈ Schema.clauses db -> Schema.cl_document_id r <> Some id ->
        r ∈ Schema.clauses db')
  /\ (forall r k, r ∈ Schema.analysis_results db' -> Schema.ar_document_id r = Some k ->
        k ∈ Schema.document_ids db')
  /\ (forall r k, r ∈ Schema.clauses db' -> Schema.cl_document_id r = Some k ->
        k ∈ Schema.document_ids db')
  /\ (forall P, Schema.referential_integrity (Schema.delete_documents P db))
  /\ (forall user, Schema.referential_integrity (Schema.delete_user user db))
  /\ Schema.users db' = Schema.users db
  /\ Schema.documents db' = filter (fun d => Schema.doc_id d <> id) (Schema.documents db)
  /\ Schema.analysis_results db'
     = filter (fun r => Schema.ar_document_id r <> Some id) (Schema.analysis_results db)
  /\ Schema.clauses db'
     = filter (fun r => Schema.cl_document_id r <> Some id) (Schema.clauses db)
  /\ (forall P,
        Schema.users (Schema.delete_documents P db) = Schema.users db
        /\ Schema.documents (Schema.delete_documents P db)
           = filter (fun d => P d = false) (Schema.documents db)
        /\ (forall r, r ∈ Schema.analysis_results (Schema.delete_documents P db)
                      <-> r ∈ Schema.analysis_results db
                          /\ forall d, d ∈ Schema.documents db -> P d = true ->
                                Schema.ar_document_id r <> Some (Schema.doc_id d))
        /\ (forall r, r ∈ Schema.clauses (Schema.delete_documents P db)
                      <-> r ∈ Schema.clauses db
                          /\ forall d, d ∈ Schema.documents db -> P d = true ->
                                Schema.cl_document_id r <> Some (Schema.doc_id d))).
Proof.
  intros db db'. pose proof (SchemaFacts.run_integrity script) as RI. fold db in RI.
  pose proof (SchemaFacts.delete_documents_integrity
                (fun d => bool_decide (Schema.doc_id d = id)) db RI) as [RA RC].
  fold (Schema.delete_document id db) in RA, RC. fold db' in RA, RC.
  destruct (CascadeFacts.delete_document_tables id db RI) as (TU & TD & TA & TC).
  fold db' in TU, TD, TA, TC.
  assert (Hid : id ∉ Schema.document_ids db').
  { unfold Schema.document_ids. intros H. apply list_elem_of_fmap in H as (d & E & Hd).
    apply SchemaFacts.delete_documents_documents in Hd as [Hp _].
    apply bool_decide_eq_false_1 in Hp. auto. }
  split; [exact Hid|].
  split; [intros r Hr E; exact (Hid (RA r id Hr E))|].
  split; [intros r Hr E; exact (Hid (RC r id Hr E))|].
  split; [|split; [|split; [|split; [exact RA|split; [exact RC|split; [|split]]]]]].
  - intros d Hd Hne. apply SchemaFacts.delete_documents_documents.
    split; [apply bool_decide_eq_false_2; exact Hne|exact Hd].
  - intros r Hr Hne. apply SchemaFacts.delete_documents_analysis_results.
    split; [|exact Hr]. intros k Hk Hin. apply SchemaFacts.removed_by_id in Hin as [-> _].
    exact (Hne Hk).
  - intros r Hr Hne. apply SchemaFacts.delete_documents_clauses.
    split; [|exact Hr]. intros k Hk Hin. apply SchemaFacts.removed_by_id in Hin as [-> _].
    exact (Hne Hk).
  - intros P. apply SchemaFacts.delete_documents_integrity, RI.
  - intros user. apply SchemaFacts.delete_user_integrity, RI.
  - split; [exact TU|]. split; [exact TD|]. split; [exact TA|]. split; [exact TC|].
    intros P. split; [reflexivity|]. split; [reflexivity|].
    split; intros r; [apply CascadeFacts.analysis_results_left|apply CascadeFacts.clauses_left].
Qed.

(** ** Runs on the example inputs *)

(** A 404 from the server: [request] throws an [Error] with the status line
    and the body, and [handleCompile] shows it and clears [loading]. *)
Lemma request_returns_parsed_body_or_throws_witness :
  (Client.request [] Examples.example_network Client.GET (js "/api/v1/legal/templates") None).1
  = Rejected (ErrorObject (js "404 Not Found: template not found")).
Proof.
  destruct (request_returns_parsed_body_or_throws [] Examples.example_network Client.GET
              (js "/api/v1/legal/templates") None Examples.not_found_response eq_refl)
    as [H _].
  destruct (H eq_refl) as [(tail & E & _) _]. reflexivity.
Defined.

Lemma handlers_leave_loading_false_witness :
  exists p',
    (Console.handleCompile [] Examples.example_network Examples.example_page).1 = p'
    /\ Store.loading (Console.store p') = false
    /\ Store.result (Console.store p') = None
    /\ Console.error p' = Some (js "404 Not Found: template not found").
Proof.
  destruct (handlers_leave_loading_false [] Examples.example_network Examples.example_page)
    as (_ & _ & H & _).
  destruct (H eq_refl) as (L & R & _).
  destruct (R (ErrorObject (js "404 Not Found: template not found")) eq_refl) as [R1 R2].
  eexists. split; [reflexivity|]. split; [exact L|]. split; [exact R1|exact R2].
Defined.

Example RiskBadge_level_at_the_thresholds :
  Console.RiskBadge_level 0 = low
  /\ Console.RiskBadge_level 0.29 = low
  /\ Console.RiskBadge_level 0.3 = medium
  /\ Console.RiskBadge_level 0.5 = high
  /\ Console.RiskBadge_level 0.62 = high
  /\ Console.RiskBadge_level 0.7 = critical
  /\ Console.RiskBadge_level 1 = critical.
Proof. repeat split. Qed.

Example cascade_on_the_example_script :
  let db := Schema.run Examples.example_script in
  let db' := Schema.delete_document 10%N db in
  Schema.cl_id <$> Schema.clauses db = [30; 31]%N
  /\ Schema.ar_id <$> Schema.analysis_results db = [20]%N
  /\ Schema.document_ids db' = [11]%N
  /\ Schema.ar_id <$> Schema.analysis_results db' = []
  /\ Schema.cl_id <$> Schema.clauses db' = [31]%N
  /\ Schema.document_ids (Schema.delete_user 1%N db) = []
  /\ Schema.clauses (Schema.delete_user 1%N db) = [].
Proof. repeat split. Qed.

(** The document is read where the handler starts: a successful reply is
    stored under the handler's result type and clears nothing else. *)
Example handleAnalyze_stores_the_reply :
  let reply := JObject [(js "risk_score", JNumber 0.62)] in
  let net : Client.Network := fun _ =>
    Fulfilled {| Client.ok := true; Client.status := 200; Client.statusText := js "OK";
                 Client.text := Fulfilled []; Client.json := Fulfilled reply |} in
  let run := Console.handleAnalyze (js "http://localhost:8081") net Examples.example_page in
  Store.result (Console.store run.1)
  = Some {| Store.type := Store.type_analyze; Store.data := reply |}
  /\ Store.loading (Console.store run.1) = false
  /\ Console.error run.1 = None
  /\ (Client.url <$> run.2) = [js "http://localhost:8081/api/v1/legal/analyze"]
  /\ (Client.method <$> run.2) = [Client.POST]
  /\ (Client.body <$> run.2)
     = [Some (Client.AnalyzeRequest Examples.example_document (js "en"))].
Proof. repeat split. Qed.

(* ===================================================================== *)
(** * Part III: further properties of the sources                         *)
(* ===================================================================== *)

(** ** The badge on all doubles *)

Lemma SFleb_trans x y z : SFleb x y = true -> SFleb y z = true -> SFleb x z = true.
Proof.
  unfold SFleb. sf_cases x y z; intros H1 H2; sf_order.
Qed.

Lemma SFleb_ltb_trans x y z : SFleb x y = true -> SFltb y z = true -> SFleb x z = true.
Proof.
  unfold SFleb, SFltb. sf_cases x y z; intros H1 H2; sf_order.
Qed.

Lemma SFeqb_irrefl_nan x : SFeqb x x = false -> x = S754_nan.
Proof.
  unfold SFeqb. destruct x as [[]|[]| |[] m e]; simpl; try discriminate; try reflexivity.
  - rewrite Z.compare_refl.
    change (PosDef.Pos.compare_cont Eq m m) with (Pos.compare m m).
    rewrite Pos.compare_refl. discriminate.
  - rewrite Z.compare_refl.
    change (PosDef.Pos.compare_cont Eq m m) with (Pos.compare m m).
    rewrite Pos.compare_refl. discriminate.
Qed.

Lemma float_ge_le_trans (c s1 s2 : float) :
  (s1 >=? c)%float = true -> (s1 <=? s2)%float = true -> (s2 >=? c)%float = true.
Proof. unfold geb. rewrite !leb_spec. apply SFleb_trans. Qed.

Lemma float_nan_not_ge (c s : float) : (s =? s)%float = false -> (s >=? c)%float = false.
Proof.
  unfold geb. rewrite FloatAxioms.eqb_spec, leb_spec. intros H.
  apply SFeqb_irrefl_nan in H. rewrite H. unfold SFleb.
  destruct (Prim2SF c) as [[]|[]| |[] ? ?]; reflexivity.
Qed.

(** X1.  The badge never ranks a larger score below a smaller one. *)
Theorem RiskBadge_level_monotone (s1 s2 : float) :
  (s1 <=? s2)%float = true ->
  View.rank (Console.RiskBadge_level s1) <= View.rank (Console.RiskBadge_level s2).
Proof.
  intros H.
  pose proof (fun c G => float_ge_le_trans c s1 s2 G H) as T.
  unfold Console.RiskBadge_level.
  destruct (s1 >=? 0.7)%float eqn:A7; [rewrite (T 0.7%float A7); reflexivity|].
  destruct (s1 >=? 0.5)%float eqn:A5.
  { rewrite (T 0.5%float A5). destruct (s2 >=? 0.7)%float; simpl; lia. }
  destruct (s1 >=? 0.3)%float eqn:A3.
  { rewrite (T 0.3%float A3). destruct (s2 >=? 0.7)%float, (s2 >=? 0.5)%float; simpl; lia. }
  simpl. lia.
Qed.

Lemma RiskBadge_level_monotone_witness :
  View.rank (Console.RiskBadge_level 0.31) <= View.rank (Console.RiskBadge_level 0.58).
Proof. apply (RiskBadge_level_monotone 0.31 0.58). reflexivity. Defined.

(** X2.  Outside [0,1] the badge still answers: a negative score and a NaN
    are shown as low, a score above 1 as critical. *)
Theorem RiskBadge_level_outside_the_unit_interval (s : float) :
  ((s <? 0)%float = true -> Console.RiskBadge_level s = low)
  /\ ((s =? s)%float = false -> Console.RiskBadge_level s = low)
  /\ ((1 <? s)%float = true -> Console.RiskBadge_level s = critical).
Proof.
  unfold Console.RiskBadge_level. split; [|split]; intros H.
  - rewrite (float_lt_le_not_ge s 0 0.7 H eq_refl), (float_lt_le_not_ge s 0 0.5 H eq_refl),
      (float_lt_le_not_ge s 0 0.3 H eq_refl). reflexivity.
  - rewrite !(float_nan_not_ge _ s H). reflexivity.
  - assert (G : (s >=? 0.7)%float = true).
    { unfold geb. rewrite leb_spec. rewrite ltb_spec in H.
      refine (SFleb_ltb_trans _ (Prim2SF 1) _ _ H). reflexivity. }
    rewrite G. reflexivity.
Qed.

Example RiskBadge_level_far_outside :
  Console.RiskBadge_level (-0.2) = low
  /\ Console.RiskBadge_level nan = low
  /\ Console.RiskBadge_level 1.5 = critical
  /\ Console.RiskBadge_level infinity = critical
  /\ Console.RiskBadge_level neg_infinity = low.
Proof. repeat split. Qed.

(** ** The handlers, from the button to the banner *)

Module HandlerFacts.
Import Console Interaction.

Lemma decimal_nonempty (n : N) : decimal n <> [].
Proof.
  unfold decimal, NilZero.string_of_uint.
  destruct (N.to_uint n); simpl; discriminate.
Qed.

Lemma error_message_nonempty (res : Client.Response) :
  truthy (Client.error_message res) = true.
Proof.
  unfold Client.error_message.
  pose proof (decimal_nonempty (Client.status res)) as H.
  destruct (decimal (Client.status res)); [congruence|reflexivity].
Qed.

Section WithNetwork.

Variable BASE_URL : str.
Variable net : Client.Network.

(** What the client call of a handler settles to, read off the network. *)
Lemma handler_unfold (k : Store.ResultType) (p : Page) :
  handler BASE_URL net k p
  = if guard k p
    then (after_await k
            match net (call_of BASE_URL k p) with
            | Fulfilled res => Client.handle_response res
            | Rejected e => Rejected e
            end
            (setError None (setLoading true p)),
          [call_of BASE_URL k p])
    else (p, []).
Proof.
  destruct k; unfold handler, guard, handleAnalyze, handleCompile, handleRiskScore;
    match goal with |- context [truthy ?x] => destruct (truthy x) end; reflexivity.
Qed.

(** Each handler is its part before the [await] followed by its part after. *)
Lemma handlers_split_at_await (p : Page) :
  handleAnalyze BASE_URL net p
  = match handleAnalyze_before_await BASE_URL net p with
    | None => (p, [])
    | Some (p1, (outcome, made)) => (after_await Store.type_analyze outcome p1, made)
    end
  /\ handleRiskScore BASE_URL net p
     = match handleRiskScore_before_await BASE_URL net p with
       | None => (p, [])
       | Some (p1, (outcome, made)) => (after_await Store.type_risk outcome p1, made)
       end
  /\ handleCompile BASE_URL net p
     = match handleCompile_before_await BASE_URL net p with
       | None => (p, [])
       | Some (p1, (outcome, made)) => (after_await Store.type_compile outcome p1, made)
       end.
Proof.
  unfold handleAnalyze, handleRiskScore, handleCompile, handleAnalyze_before_await,
    handleRiskScore_before_await, handleCompile_before_await.
  repeat split;
    match goal with |- context [truthy ?x] => destruct (truthy x) end; reflexivity.
Qed.

End WithNetwork.

End HandlerFacts.

(** X3.  A handler makes exactly one [fetch] call when it gets past its
    guard and none otherwise, in which case it leaves the page as it was.
    The call is a POST to the handler's endpoint carrying the document and
    language, the document, or the template id with an empty variable map.
    A button that is enabled always gets its handler past the guard. *)
Theorem handler_makes_one_call_or_none
  (BASE_URL : str) (net : Client.Network) (k : Store.ResultType) (p : Console.Page) :
  (Interaction.handler BASE_URL net k p).2
  = (if Interaction.guard k p then [Interaction.call_of BASE_URL k p] else [])
  /\ (Interaction.guard k p = false -> (Interaction.handler BASE_URL net k p).1 = p)
  /\ (Interaction.guard Store.type_analyze p
      = negb (forallb is_white_space (Store.document (Console.store p))))
  /\ (View.analyze_disabled p = false -> Interaction.guard Store.type_analyze p = true)
  /\ (View.riskScore_disabled p = false -> Interaction.guard Store.type_risk p = true)
  /\ (View.compile_disabled p = false -> Interaction.guard Store.type_compile p = true).
Proof.
  rewrite HandlerFacts.handler_unfold.
  split; [destruct (Interaction.guard k p); reflexivity|].
  split; [intros ->; reflexivity|].
  split; [unfold Interaction.guard; rewrite <- not_truthy_trim, negb_involutive; reflexivity|].
  unfold View.analyze_disabled, View.riskScore_disabled, View.compile_disabled, Interaction.guard.
  repeat split; intros H; apply orb_false_elim in H as [_ H];
    apply negb_false_iff in H; exact H.
Qed.

(** X4.  No handler, on any path and whatever the network does, changes the
    document, the language, the template id or the active tab. *)
Theorem handlers_keep_the_inputs
  (BASE_URL : str) (net : Client.Network) (k : Store.ResultType) (p : Console.Page) :
  let p' := (Interaction.handler BASE_URL net k p).1 in
  Store.document (Console.store p') = Store.document (Console.store p)
  /\ Store.language (Console.store p') = Store.language (Console.store p)
  /\ Store.templateId (Console.store p') = Store.templateId (Console.store p)
  /\ Console.activeTab p' = Console.activeTab p.
Proof.
  cbv zeta. rewrite HandlerFacts.handler_unfold.
  destruct (Interaction.guard k p); [|repeat split].
  unfold Interaction.after_await.
  destruct (match net _ with Fulfilled res => _ | Rejected e => _ end); repeat split.
Qed.

(** X5.  When the server answers a handler's request with a status that is
    not ok, the page ends with the status line (and the body, when there is
    one) as its error, the banner shows it, since that text is never empty,
    the earlier result stays, and [loading] is false. *)
Theorem console_shows_the_http_error
  (BASE_URL : str) (net : Client.Network) (k : Store.ResultType) (p : Console.Page)
  (res : Client.Response) :
  Interaction.guard k p = true ->
  net (Interaction.call_of BASE_URL k p) = Fulfilled res ->
  Client.ok res = false ->
  let p' := (Interaction.handler BASE_URL net k p).1 in
  Console.error p' = Some (Client.error_message res)
  /\ View.error_banner p' = Some (Client.error_message res)
  /\ Store.result (Console.store p') = Store.result (Console.store p)
  /\ Store.loading (Console.store p') = false
  /\ View.rendered View.spinner p' = false.
Proof.
  intros G N O. cbv zeta. rewrite HandlerFacts.handler_unfold, G, N.
  rewrite (ClientFacts.handle_response_not_ok res O).
  unfold View.error_banner. cbn.
  rewrite (HandlerFacts.error_message_nonempty res). repeat split.
Qed.

Lemma console_shows_the_http_error_witness :
  View.error_banner
    (Interaction.handler [] Examples.example_network Store.type_compile Examples.example_page).1
  = Some (js "404 Not Found: template not found").
Proof.
  exact (proj1 (proj2 (console_shows_the_http_error [] Examples.example_network
                         Store.type_compile Examples.example_page
                         Examples.not_found_response eq_refl eq_refl eq_refl))).
Defined.

(** X6.  When [fetch] itself rejects, or the body of an ok response does not
    parse, the thrown value reaches the handler as it is: the page's error is
    its message when it is an [Error] and the handler's own text when it is
    not, the earlier result stays and [loading] is false.  An [Error] with an
    empty message leaves no banner. *)
Theorem console_shows_what_was_thrown
  (BASE_URL : str) (net : Client.Network) (k : Store.ResultType) (p : Console.Page)
  (e : Thrown) :
  Interaction.guard k p = true ->
  (net (Interaction.call_of BASE_URL k p) = Rejected e
   \/ exists res, net (Interaction.call_of BASE_URL k p) = Fulfilled res
                  /\ Client.ok res = true /\ Client.json res = Rejected e) ->
  let p' := (Interaction.handler BASE_URL net k p).1 in
  Console.error p' = Some (Console.message_of e (Interaction.fallback k))
  /\ (forall m, e = ErrorObject m -> Console.error p' = Some m)
  /\ (forall v, e = NotAnError v -> Console.error p' = Some (Interaction.fallback k))
  /\ (e = ErrorObject [] -> View.error_banner p' = None)
  /\ Store.result (Console.store p') = Store.result (Console.store p)
  /\ Store.loading (Console.store p') = false.
Proof.
  intros G N. cbv zeta. rewrite HandlerFacts.handler_unfold, G.
  assert (E : match net (Interaction.call_of BASE_URL k p) with
              | Fulfilled res => Client.handle_response res
              | Rejected e => Rejected e
              end = Rejected e).
  { destruct N as [->|(res & -> & O & J)]; [reflexivity|].
    rewrite (ClientFacts.handle_response_ok res O). exact J. }
  rewrite E. unfold View.error_banner. cbn.
  split; [reflexivity|]. split; [intros m ->; reflexivity|].
  split; [intros v ->; reflexivity|]. split; [intros ->; reflexivity|]. split; reflexivity.
Qed.

Lemma console_shows_what_was_thrown_witness :
  Console.error
    (Interaction.handler [] (fun _ => Rejected (ErrorObject (js "Failed to fetch")))
       Store.type_analyze Examples.example_page).1
  = Some (js "Failed to fetch").
Proof.
  exact (proj1 (console_shows_what_was_thrown [] (fun _ => Rejected (ErrorObject (js "Failed to fetch")))
                  Store.type_analyze Examples.example_page
                  (ErrorObject (js "Failed to fetch")) eq_refl (or_introl eq_refl))).
Defined.

(** X7.  When the server answers ok and the body parses, the page ends with
    that value as its stored result, under the handler's type, with no error
    and no banner left from before and with [loading] false, so that neither
    the placeholder nor the spinner is rendered. *)
Theorem console_stores_the_reply
  (BASE_URL : str) (net : Client.Network) (k : Store.ResultType) (p : Console.Page)
  (res : Client.Response) (v : JsValue) :
  Interaction.guard k p = true ->
  net (Interaction.call_of BASE_URL k p) = Fulfilled res ->
  Client.ok res = true ->
  Client.json res = Fulfilled v ->
  let p' := (Interaction.handler BASE_URL net k p).1 in
  Store.result (Console.store p') = Some {| Store.type := k; Store.data := v |}
  /\ Console.error p' = None
  /\ View.error_banner p' = None
  /\ Store.loading (Console.store p') = false
  /\ View.rendered View.placeholder p' = false
  /\ View.rendered View.spinner p' = false.
Proof.
  intros G N O J. cbv zeta. rewrite HandlerFacts.handler_unfold, G, N.
  rewrite (ClientFacts.handle_response_ok res O), J. repeat split.
Qed.

Lemma console_stores_the_reply_witness :
  let reply := JObject [(js "overall_score", JNumber 0.58)] in
  let net : Client.Network := fun _ =>
    Fulfilled {| Client.ok := true; Client.status := 200; Client.statusText := js "OK";
                 Client.text := Fulfilled []; Client.json := Fulfilled reply |} in
  Store.result (Console.store (Interaction.handler [] net Store.type_risk Examples.example_page).1)
  = Some {| Store.type := Store.type_risk; Store.data := reply |}.
Proof.
  intros reply net.
  exact (proj1 (console_stores_the_reply [] net Store.type_risk Examples.example_page
                  _ reply eq_refl eq_refl eq_refl eq_refl)).
Defined.

(** ** What the page renders *)

(** X9.  The level tag of a clause has three colourings only: every level
    that is neither high nor medium, critical included, is tagged in the
    green of low, whereas the badge gives each of the four levels a colouring
    of its own. *)
Theorem clause_tag_has_three_colorings (risk_level : str) :
  (View.clause_tag_colors risk_level = View.clause_tag_colors (js "low")
   <-> risk_level <> js "high" /\ risk_level <> js "medium")
  /\ View.clause_tag_colors (RiskLevel_name critical)
     = View.clause_tag_colors (RiskLevel_name low)
  /\ (forall l l', Console.RiskBadge_colors l = Console.RiskBadge_colors l' -> l = l').
Proof.
  split; [|split].
  - unfold View.clause_tag_colors.
    destruct (decide (risk_level = js "high")) as [->|H].
    { split; [vm_compute; discriminate|intros [H _]; congruence]. }
    rewrite (bool_decide_eq_false_2 _ H).
    destruct (decide (risk_level = js "medium")) as [->|M].
    { split; [vm_compute; discriminate|intros [_ M]; congruence]. }
    rewrite (bool_decide_eq_false_2 _ M). split; [auto|reflexivity].
  - reflexivity.
  - intros [] []; first [reflexivity | vm_compute; discriminate].
Qed.

(** ** Sessions *)

Module SessionFacts.
Import Console Interaction.

Section WithNetwork.

Variable BASE_URL : str.
Variable net : Client.Network.

Lemma initial_sound : sound BASE_URL initial.
Proof.
  unfold sound, initial. cbn [page in_flight calls store Store.loading Store.language
    Store.templateId Store.initialState length].
  split; [lia|]. split; [split; [discriminate|congruence]|].
  split; [left|]. split; [left; reflexivity|]. intros c Hc. inversion Hc.
Qed.

Lemma option_value_offered (options : list SelectOption) (n : nat) (o : SelectOption) :
  options !! n = Some o -> value o ∈ value <$> options.
Proof. intros H. apply list_elem_of_fmap_2. eapply list_elem_of_lookup_2. exact H. Qed.

(** A click that goes through starts one request on a page that had none. *)
Lemma launch_sound (k : Store.ResultType) (s : Session) started :
  sound BASE_URL s ->
  Store.loading (store (page s)) = false ->
  guard k (page s) = true ->
  (k = Store.type_compile -> Store.templateId (store (page s)) <> []) ->
  started = Some (setError None (setLoading true (page s)),
                  (match net (call_of BASE_URL k (page s)) with
                   | Fulfilled res => Client.handle_response res
                   | Rejected e => Rejected e
                   end, [call_of BASE_URL k (page s)])) ->
  sound BASE_URL (launch k started s).
Proof.
  intros (L & F & Hl & Ht & Hc) Hload G Hk ->. unfold launch, sound.
  cbn [page in_flight calls].
  assert (E : in_flight s = []).
  { destruct (in_flight s) eqn:E; [reflexivity|].
    assert (X : Store.loading (store (page s)) = true) by (apply F; discriminate).
    congruence. }
  rewrite E. change (Store.loading (store (setError None (setLoading true (page s))))) with true.
  change (Store.language (store (setError None (setLoading true (page s)))))
    with (Store.language (store (page s))).
  change (Store.templateId (store (setError None (setLoading true (page s)))))
    with (Store.templateId (store (page s))).
  split; [simpl; lia|]. split; [split; [discriminate|reflexivity]|].
  split; [exact Hl|]. split; [exact Ht|].
  intros c Hin. apply elem_of_app in Hin as [Hin|Hin]; [exact (Hc c Hin)|].
  apply list_elem_of_singleton in Hin. subst c. exists k, (page s).
  split; [reflexivity|]. split; [exact G|]. split; [exact Hl|].
  intros Ek. destruct Ht as [Ht|Ht]; [destruct (Hk Ek Ht)|exact Ht].
Qed.

Lemma with_page_sound (f : Page -> Page) (s : Session) :
  sound BASE_URL s ->
  Store.loading (store (f (page s))) = Store.loading (store (page s)) ->
  Store.language (store (f (page s))) ∈ value <$> LANGUAGES ->
  (Store.templateId (store (f (page s))) = []
   \/ Store.templateId (store (f (page s))) ∈ value <$> TEMPLATES) ->
  sound BASE_URL (with_page f s).
Proof.
  intros (L & F & Hl & Ht & Hc) E Hl' Ht'. unfold sound, with_page.
  cbn [page in_flight calls]. rewrite E. auto.
Qed.

Lemma step_sound (s : Session) (e : Event) :
  sound BASE_URL s -> sound BASE_URL (step BASE_URL net s e).
Proof.
  intros S. pose proof S as (L & F & Hl & Ht & Hc).
  destruct e as [t|n|d|n| | | |]; cbn [step].
  - apply with_page_sound; [exact S|reflexivity|exact Hl|exact Ht].
  - destruct (on_tab tab_analyze s); [|exact S].
    destruct (LANGUAGES !! n) as [o|] eqn:E; [|exact S].
    apply with_page_sound; [exact S|reflexivity| |exact Ht].
    exact (option_value_offered _ _ _ E).
  - destruct (on_tab tab_analyze s); [|exact S].
    apply with_page_sound; [exact S|reflexivity|exact Hl|exact Ht].
  - destruct (on_tab tab_compile s); [|exact S].
    destruct n as [n|].
    + destruct (TEMPLATES !! n) as [o|] eqn:E; [|exact S].
      apply with_page_sound; [exact S|reflexivity|exact Hl|].
      right. exact (option_value_offered _ _ _ E).
    + apply with_page_sound; [exact S|reflexivity|exact Hl|left; reflexivity].
  - destruct (on_tab tab_analyze s && negb (View.analyze_disabled (page s))) eqn:C; [|exact S].
    apply andb_prop in C as [_ C]. apply negb_true_iff, orb_false_elim in C as [C1 C2].
    apply negb_false_iff in C2.
    apply (launch_sound Store.type_analyze s _ S C1 C2); [discriminate|].
    unfold handleAnalyze_before_await. rewrite C2. reflexivity.
  - destruct (on_tab tab_analyze s && negb (View.riskScore_disabled (page s))) eqn:C; [|exact S].
    apply andb_prop in C as [_ C]. apply negb_true_iff, orb_false_elim in C as [C1 C2].
    apply negb_false_iff in C2.
    apply (launch_sound Store.type_risk s _ S C1 C2); [discriminate|].
    unfold handleRiskScore_before_await. rewrite C2. reflexivity.
  - destruct (on_tab tab_compile s && negb (View.compile_disabled (page s))) eqn:C; [|exact S].
    apply andb_prop in C as [_ C]. apply negb_true_iff, orb_false_elim in C as [C1 C2].
    apply negb_false_iff in C2.
    apply (launch_sound Store.type_compile s _ S C1 C2).
    + intros _ E. rewrite E in C2. discriminate.
    + unfold handleCompile_before_await. rewrite C2. reflexivity.
  - destruct (in_flight s) as [|[k outcome] rest] eqn:E; [exact S|].
    assert (R : rest = []) by (destruct rest; [reflexivity|simpl in L; lia]).
    subst rest. unfold sound. cbn [page in_flight calls].
    assert (A : Store.loading (store (after_await k outcome (page s))) = false
                /\ Store.language (store (after_await k outcome (page s)))
                   = Store.language (store (page s))
                /\ Store.templateId (store (after_await k outcome (page s)))
                   = Store.templateId (store (page s))).
    { unfold after_await. destruct outcome; repeat split. }
    destruct A as (A1 & A2 & A3). rewrite A1, A2, A3.
    split; [simpl; lia|]. split; [split; [discriminate|congruence]|]. auto.
Qed.

Lemma run_sound (events : list Event) : sound BASE_URL (run BASE_URL net events).
Proof.
  unfold run. generalize initial_sound. generalize initial.
  induction events as [|e events IH]; intros s S; [exact S|].
  simpl. apply IH, step_sound, S.
Qed.

End WithNetwork.

End SessionFacts.

(** X10.  Whatever the user does and whenever requests settle, at most one
    request is waiting for its answer, [loading] is true exactly while one
    is, and so is the spinner. *)
Theorem at_most_one_request_in_flight
  (BASE_URL : str) (net : Client.Network) (events : list Interaction.Event) :
  let s := Interaction.run BASE_URL net events in
  length (Interaction.in_flight s) <= 1
  /\ (Store.loading (Console.store (Interaction.page s)) = true
      <-> Interaction.in_flight s <> [])
  /\ (View.rendered View.spinner (Interaction.page s) = true
      <-> Interaction.in_flight s <> []).
Proof.
  destruct (SessionFacts.run_sound BASE_URL net events) as (L & F & _).
  cbv zeta. split; [exact L|]. split; exact F.
Qed.

(** X11.  The language in the store is always one of en, ja, de, fr, and
    the template id is always empty or one of the seven on offer. *)
Theorem selected_values_are_on_offer
  (BASE_URL : str) (net : Client.Network) (events : list Interaction.Event) :
  let st := Console.store (Interaction.page (Interaction.run BASE_URL net events)) in
  Store.language st ∈ [js "en"; js "ja"; js "de"; js "fr"]
  /\ (Store.templateId st = []
      \/ Store.templateId st ∈ [js "nda"; js "sla"; js "dpa"; js "tos"; js "privacy";
                                js "employment"; js "license"]).
Proof.
  destruct (SessionFacts.run_sound BASE_URL net events) as (_ & _ & Hl & Ht & _).
  cbv zeta. split; [exact Hl|exact Ht].
Qed.

(** X12.  Every request the page ever makes is a POST with a JSON body to
    one of three endpoints: an analysis of a document that is not blank in a
    language on offer, a risk score of a document that is not blank, or a
    compilation of a template on offer with no variables.  The template list
    is never fetched. *)
Theorem console_requests_are_well_formed
  (BASE_URL : str) (net : Client.Network) (events : list Interaction.Event)
  (c : Client.FetchCall) :
  c ∈ Interaction.calls (Interaction.run BASE_URL net events) ->
  Client.method c = Client.POST
  /\ Client.headers c = [(js "Content-Type", js "application/json")]
  /\ ((exists document lang,
         Client.url c = BASE_URL ++ js "/api/v1/legal/analyze"
         /\ Client.body c = Some (Client.AnalyzeRequest document lang)
         /\ forallb is_white_space document = false
         /\ lang ∈ Console.value <$> Console.LANGUAGES)
      \/ (exists document,
            Client.url c = BASE_URL ++ js "/api/v1/legal/risk-score"
            /\ Client.body c = Some (Client.RiskRequest document)
            /\ forallb is_white_space document = false)
      \/ (exists template_id,
            Client.url c = BASE_URL ++ js "/api/v1/legal/compile"
            /\ Client.body c = Some (Client.CompileRequest template_id [])
            /\ template_id ∈ Console.value <$> Console.TEMPLATES))
  /\ c <> Client.fetch_call BASE_URL Client.GET (js "/api/v1/legal/templates") None.
Proof.
  intros Hc.
  destruct (SessionFacts.run_sound BASE_URL net events) as (_ & _ & _ & _ & H).
  destruct (H c Hc) as (k & p & -> & G & Hl & Ht).
  assert (B : forall s, truthy (trim s) = true -> forallb is_white_space s = false).
  { intros s T. rewrite <- not_truthy_trim, T. reflexivity. }
  destruct k; cbn [Interaction.call_of Interaction.guard] in *.
  - split; [reflexivity|]. split; [reflexivity|].
    split; [|unfold Client.fetch_call; congruence].
    left. eexists _, _. split; [reflexivity|]. split; [reflexivity|]. auto.
  - split; [reflexivity|]. split; [reflexivity|].
    split; [|unfold Client.fetch_call; congruence].
    right. right. eexists. split; [reflexivity|]. split; [reflexivity|]. auto.
  - split; [reflexivity|]. split; [reflexivity|].
    split; [|unfold Client.fetch_call; congruence].
    right. left. eexists. split; [reflexivity|]. split; [reflexivity|]. auto.
Qed.

Lemma console_requests_are_well_formed_witness :
  exists c,
    Interaction.calls
      (Interaction.run [] Examples.example_network
         [Interaction.ChangeDocument Examples.example_document; Interaction.ClickRiskScore])
    = [c]
    /\ Client.method c = Client.POST.
Proof.
  eexists. split; [reflexivity|].
  refine (proj1 (console_requests_are_well_formed [] Examples.example_network
                   [Interaction.ChangeDocument Examples.example_document;
                    Interaction.ClickRiskScore] _ _)).
  left.
Defined.

(** X13.  A click on the enabled Analyze button followed by the settling of
    its request leaves the page that [handleAnalyze] computes, and adds the
    call that [handleAnalyze] makes.  What the user types while the request
    is out changes neither what was sent nor what is stored when it settles,
    and is not lost. *)
Theorem click_then_settle_is_handleAnalyze
  (BASE_URL : str) (net : Client.Network) (events : list Interaction.Event) (d : str) :
  let s := Interaction.run BASE_URL net events in
  Interaction.on_tab Console.tab_analyze s = true ->
  View.analyze_disabled (Interaction.page s) = false ->
  let done := Console.handleAnalyze BASE_URL net (Interaction.page s) in
  let s1 := Interaction.run BASE_URL net
              (events ++ [Interaction.ClickAnalyze; Interaction.Settle]) in
  let s2 := Interaction.run BASE_URL net
              (events ++ [Interaction.ClickAnalyze; Interaction.ChangeDocument d;
                          Interaction.Settle]) in
  Interaction.page s1 = done.1
  /\ Interaction.calls s1 = Interaction.calls s ++ done.2
  /\ Interaction.in_flight s1 = []
  /\ Interaction.calls s2 = Interaction.calls s1
  /\ Store.document (Console.store (Interaction.page s2)) = d
  /\ Store.result (Console.store (Interaction.page s2))
     = Store.result (Console.store (Interaction.page s1))
  /\ Console.error (Interaction.page s2) = Console.error (Interaction.page s1).
Proof.
  intros s T D done s1 s2.
  assert (R : forall l, Interaction.run BASE_URL net (events ++ l)
                        = foldl (Interaction.step BASE_URL net) s l).
  { intros l. unfold s, Interaction.run. apply foldl_app. }
  subst s1 s2. rewrite !R. cbn [foldl].
  destruct (SessionFacts.run_sound BASE_URL net events) as (_ & F & _).
  change (Interaction.run BASE_URL net events) with s in F.
  pose proof D as D'. unfold View.analyze_disabled in D'.
  apply orb_false_elim in D' as [D1 D2]. apply negb_false_iff in D2.
  assert (E : Interaction.in_flight s = []).
  { destruct (Interaction.in_flight s) eqn:E; [reflexivity|].
    assert (X : Store.loading (Console.store (Interaction.page s)) = true)
      by (apply F; discriminate).
    congruence. }
  cbn [Interaction.step]. rewrite T, D. cbn [andb negb].
  subst done. unfold Console.handleAnalyze, Interaction.handleAnalyze_before_await.
  rewrite D2. cbn [negb Interaction.launch]. unfold Interaction.launch.
  destruct (Client.analyze BASE_URL net _ _) as [outcome made] eqn:A.
  cbn [Interaction.step Interaction.in_flight Interaction.page Interaction.calls].
  rewrite E. cbn [app].
  assert (T' : Interaction.on_tab Console.tab_analyze
                 {| Interaction.page :=
                      Console.setError None (Console.setLoading true (Interaction.page s));
                    Interaction.in_flight := [(Store.type_analyze, outcome)];
                    Interaction.calls := Interaction.calls s ++ made |} = true) by exact T.
  rewrite T'. cbn [Interaction.with_page Interaction.in_flight Interaction.page
    Interaction.calls fst snd].
  unfold Interaction.after_await. destruct outcome; repeat split.
Qed.

Lemma click_then_settle_is_handleAnalyze_witness :
  Interaction.page
    (Interaction.run [] Examples.example_network
       ([Interaction.ChangeDocument Examples.example_document]
        ++ [Interaction.ClickAnalyze; Interaction.Settle]))
  = (Console.handleAnalyze [] Examples.example_network
       (Interaction.page
          (Interaction.run [] Examples.example_network
             [Interaction.ChangeDocument Examples.example_document]))).1.
Proof.
  exact (proj1 (click_then_settle_is_handleAnalyze [] Examples.example_network
                  [Interaction.ChangeDocument Examples.example_document] []
                  eq_refl eq_refl)).
Defined.

Lemma RiskBadge_level_outside_the_unit_interval_witness :
  Console.RiskBadge_level (-0.2) = low /\ Console.RiskBadge_level 1.5 = critical.
Proof.
  destruct (RiskBadge_level_outside_the_unit_interval (-0.2)) as (A & _ & _).
  destruct (RiskBadge_level_outside_the_unit_interval 1.5) as (_ & _ & B).
  split; [apply A; reflexivity|apply B; reflexivity].
Defined.

(** ** The schema: what every database satisfies *)

Module ConstraintFacts.
Import Schema Constraints.

Lemma NoDup_fmap_filter {A B} (f : A -> B) (P : A -> Prop) `{!forall x, Decision (P x)}
    (l : list A) :
  NoDup (f <$> l) -> NoDup (f <$> filter P l).
Proof.
  intros Hn. eapply sublist_NoDup; [exact Hn|]. apply fmap_sublist, sublist_filter.
Qed.

Lemma NoDup_snoc_fresh {A} (l : list A) (x : A) : NoDup l -> x ∉ l -> NoDup (l ++ [x]).
Proof.
  intros H N. apply NoDup_app. split; [exact H|]. split; [|apply NoDup_singleton].
  intros y Hy Hx. apply list_elem_of_singleton in Hx. subst y. exact (N Hy).
Qed.

Lemma filter_all {A} (P : A -> Prop) `{!forall x, Decision (P x)} (l : list A) :
  (forall x, x ∈ l -> P x) -> filter P l = l.
Proof.
  induction l as [|x l IH]; intros Hall; [reflexivity|].
  rewrite filter_cons_True by (apply Hall; left). f_equal. apply IH.
  intros y Hy. apply Hall. right. exact Hy.
Qed.

Section Delete.

Variable P : documents_row -> bool.
Variable db : Database.

Lemma delete_documents_primary_keys :
  primary_keys db -> primary_keys (delete_documents P db).
Proof.
  intros (U & D & A & C). unfold primary_keys, document_ids. cbn [users documents
    analysis_results clauses delete_documents].
  split; [exact U|]. split; [|split]; apply NoDup_fmap_filter; assumption.
Qed.

Lemma delete_documents_checks : checks db -> checks (delete_documents P db).
Proof.
  intros [D A]. split.
  - intros d Hd. apply SchemaFacts.delete_documents_documents in Hd as [_ Hd]. auto.
  - intros r Hr. apply SchemaFacts.delete_documents_analysis_results in Hr as [_ Hr]. auto.
Qed.

Lemma delete_documents_user_references :
  user_references db -> user_references (delete_documents P db).
Proof.
  intros H d k Hd Hk. apply SchemaFacts.delete_documents_documents in Hd as [_ Hd].
  exact (H d k Hd Hk).
Qed.

End Delete.

Lemma exec_primary_keys (st : Statement) (db : Database) :
  primary_keys db -> primary_keys (exec st db).
Proof.
  intros K. pose proof K as (U & D & A & C).
  destruct st as [id|row|row|row|id|id|P|id|id]; cbn [exec].
  - destruct (negb (is_uuid id) || bool_decide (id ∈ users db)) eqn:E; [exact K|].
    apply orb_false_elim in E as [_ E]. apply bool_decide_eq_false_1 in E.
    split; [apply NoDup_snoc_fresh; assumption|]. split; [exact D|]. split; assumption.
  - unfold insert_document. destruct (_ && _) eqn:E; [|exact K].
    apply andb_prop in E as [_ E].
    apply andb_prop in E as [E _]. apply andb_prop in E as [E _].
    apply bool_decide_eq_true_1 in E.
    split; [exact U|]. split; [|split; assumption].
    unfold document_ids. cbn [documents]. rewrite fmap_app.
    apply NoDup_snoc_fresh; assumption.
  - unfold insert_analysis_result. destruct (_ && _) eqn:E; [|exact K].
    apply andb_prop in E as [_ E].
    apply andb_prop in E as [E _]. apply andb_prop in E as [E _].
    apply andb_prop in E as [E _]. apply bool_decide_eq_true_1 in E.
    split; [exact U|]. split; [exact D|]. split; [|exact C].
    cbn [analysis_results]. rewrite fmap_app. apply NoDup_snoc_fresh; assumption.
  - unfold insert_clause. destruct (_ && _) eqn:E; [|exact K].
    apply andb_prop in E as [_ E].
    apply andb_prop in E as [E _]. apply bool_decide_eq_true_1 in E.
    split; [exact U|]. split; [exact D|]. split; [exact A|].
    cbn [clauses]. rewrite fmap_app. apply NoDup_snoc_fresh; assumption.
  - unfold delete_user.
    pose proof (delete_documents_primary_keys
                  (fun d => bool_decide (doc_user_id d = Some id)) db K) as (U' & D' & A' & C').
    split; [|split; [|split]]; cbn [users documents analysis_results clauses];
      try assumption.
    eapply sublist_NoDup; [exact U'|apply sublist_filter].
  - apply delete_documents_primary_keys, K.
  - apply delete_documents_primary_keys, K.
  - split; [exact U|]. split; [exact D|]. split; [|exact C].
    cbn [analysis_results]. apply NoDup_fmap_filter, A.
  - split; [exact U|]. split; [exact D|]. split; [exact A|].
    cbn [clauses]. apply NoDup_fmap_filter, C.
Qed.

Lemma exec_checks (st : Statement) (db : Database) : checks db -> checks (exec st db).
Proof.
  intros K. pose proof K as (D & A).
  destruct st as [id|row|row|row|id|id|P|id|id]; cbn [exec].
  - destruct (_ || _); exact K.
  - unfold insert_document. destruct (_ && _) eqn:E; [|exact K].
    apply andb_prop in E as [_ E].
    apply andb_prop in E as [_ E]. split; [|exact A].
    intros d Hd. cbn [documents] in Hd. apply elem_of_app in Hd as [Hd|Hd]; [auto|].
    apply list_elem_of_singleton in Hd. subst d. exact E.
  - unfold insert_analysis_result. destruct (_ && _) eqn:E; [|exact K].
    apply andb_prop in E as [_ E].
    apply andb_prop in E as [E E2]. apply andb_prop in E as [_ E1]. split; [exact D|].
    intros r Hr. cbn [analysis_results] in Hr. apply elem_of_app in Hr as [Hr|Hr]; [auto|].
    apply list_elem_of_singleton in Hr. subst r. auto.
  - unfold insert_clause. destruct (_ && _); exact K.
  - unfold delete_user.
    pose proof (delete_documents_checks
                  (fun d => bool_decide (doc_user_id d = Some id)) db K) as K'.
    exact K'.
  - apply delete_documents_checks, K.
  - apply delete_documents_checks, K.
  - split; [exact D|]. intros r Hr. cbn [analysis_results] in Hr.
    apply list_elem_of_filter in Hr as [_ Hr]. auto.
  - exact K.
Qed.

Lemma exec_user_references (st : Statement) (db : Database) :
  user_references db -> user_references (exec st db).
Proof.
  intros K.
  destruct st as [id|row|row|row|id|id|P|id|id]; cbn [exec].
  - destruct (_ || _); [exact K|]. intros d k Hd Hk. cbn [users].
    apply elem_of_app. left. exact (K d k Hd Hk).
  - unfold insert_document. destruct (_ && _) eqn:E; [|exact K].
    apply andb_prop in E as [_ E].
    apply andb_prop in E as [E _]. apply andb_prop in E as [_ E].
    intros d k Hd Hk. cbn [documents users] in *.
    apply elem_of_app in Hd as [Hd|Hd]; [exact (K d k Hd Hk)|].
    apply list_elem_of_singleton in Hd. subst d.
    exact (proj1 (SchemaFacts.references_spec _ _) E k Hk).
  - unfold insert_analysis_result. destruct (_ && _); exact K.
  - unfold insert_clause. destruct (_ && _); exact K.
  - unfold delete_user. intros d k Hd Hk. cbn [documents users] in *.
    apply SchemaFacts.delete_documents_documents in Hd as [Hp Hd].
    apply list_elem_of_filter. split; [|exact (K d k Hd Hk)].
    intros ->. apply bool_decide_eq_false_1 in Hp. exact (Hp Hk).
  - apply delete_documents_user_references, K.
  - apply delete_documents_user_references, K.
  - exact K.
  - exact K.
Qed.

Lemma run_constraints (script : list Statement) :
  primary_keys (run script) /\ checks (run script) /\ user_references (run script).
Proof.
  unfold run.
  assert (I : primary_keys empty /\ checks empty /\ user_references empty).
  { split; [repeat split; apply NoDup_nil_2|].
    split; [split; intros x Hx; inversion Hx|intros d k Hd; inversion Hd]. }
  revert I. generalize empty.
  induction script as [|st script IH]; intros db I; [exact I|].
  simpl. apply IH. destruct I as (K & C & U).
  split; [apply exec_primary_keys, K|]. split; [apply exec_checks, C|].
  apply exec_user_references, U.
Qed.

End ConstraintFacts.

Module DeleteFacts.
Import Schema.

Lemma database_eta (db : Database) :
  {| users := users db; documents := documents db;
     analysis_results := analysis_results db; clauses := clauses db |} = db.
Proof. destruct db; reflexivity. Qed.

Lemma filter_none {A} (P : A -> Prop) `{!forall x, Decision (P x)} (l : list A) :
  (forall x, x ∈ l -> ~ P x) -> filter P l = [].
Proof.
  induction l as [|x l IH]; intros Hall; [reflexivity|].
  rewrite filter_cons_False by (apply Hall; left). apply IH.
  intros y Hy. apply Hall. right. exact Hy.
Qed.

(** A delete whose condition no document meets changes nothing. *)
Lemma delete_documents_noop (P : documents_row -> bool) (db : Database) :
  (forall d, d ∈ documents db -> P d = false) -> delete_documents P db = db.
Proof.
  intros H. unfold delete_documents.
  rewrite (filter_none (fun d => P d = true)) by (intros d Hd; rewrite (H d Hd); discriminate).
  rewrite (ConstraintFacts.filter_all (fun d => P d = false)) by exact H.
  rewrite !ConstraintFacts.filter_all; [apply database_eta| |].
  - intros r _. destruct (cl_document_id r); reflexivity.
  - intros r _. destruct (ar_document_id r); reflexivity.
Qed.

End DeleteFacts.

(** X14.  In every database the statements can build, no two users, no two
    documents, no two analysis results and no two clauses share an id. *)
Theorem primary_keys_are_unique (script : list Schema.Statement) :
  let db := Schema.run script in
  NoDup (Schema.users db)
  /\ NoDup (Schema.doc_id <$> Schema.documents db)
  /\ NoDup (Schema.ar_id <$> Schema.analysis_results db)
  /\ NoDup (Schema.cl_id <$> Schema.clauses db).
Proof. exact (proj1 (ConstraintFacts.run_constraints script)). Qed.

(** X15.  In every database the statements can build, a document's type is
    one of contract, nda, terms, privacy_policy, license, other; an analysis
    result's type is one of risk, compliance, clause, summary, and its risk
    level is null or one of low, medium, high, critical. *)
Theorem check_constraints_hold (script : list Schema.Statement) :
  let db := Schema.run script in
  (forall d, d ∈ Schema.documents db ->
     Schema.doc_type d ∈ [js "contract"; js "nda"; js "terms"; js "privacy_policy";
                          js "license"; js "other"])
  /\ (forall r, r ∈ Schema.analysis_results db ->
        Schema.ar_analysis_type r ∈ [js "risk"; js "compliance"; js "clause"; js "summary"]
        /\ (Schema.ar_risk_level r = None
            \/ exists l, Schema.ar_risk_level r = Some l
                         /\ l ∈ [js "low"; js "medium"; js "high"; js "critical"])).
Proof.
  destruct (ConstraintFacts.run_constraints script) as (_ & [D A] & _). cbv zeta. split.
  - intros d Hd. apply D in Hd. exact (bool_decide_eq_true_1 _ Hd).
  - intros r Hr. apply A in Hr as [H1 H2]. split; [exact (bool_decide_eq_true_1 _ H1)|].
    unfold Schema.risk_level_check in H2. destruct (Schema.ar_risk_level r) as [l|]; [|auto].
    right. exists l. split; [reflexivity|exact (bool_decide_eq_true_1 _ H2)].
Qed.

(** X16.  In every database the statements can build, a document's
    [user_id] is null or the id of a user that is present.  Removing a user
    removes that user, the documents of that user, and the analysis results
    and clauses that reference one of those documents, and nothing else:
    each table afterwards is the table before without those rows, and no row
    is altered.  Afterwards every [user_id] and every [document_id] that is
    not null still names a row that is present. *)
Theorem removing_a_user_cascades (script : list Schema.Statement) (user : Schema.uuid) :
  let db := Schema.run script in
  let db' := Schema.delete_user user db in
  (forall d k, d ∈ Schema.documents db -> Schema.doc_user_id d = Some k -> k ∈ Schema.users db)
  /\ (user ∉ Schema.users db')
  /\ (forall d, d ∈ Schema.documents db' -> Schema.doc_user_id d <> Some user)
  /\ (forall d, d ∈ Schema.documents db -> Schema.doc_user_id d <> Some user ->
        d ∈ Schema.documents db')
  /\ (forall d k, d ∈ Schema.documents db' -> Schema.doc_user_id d = Some k ->
        k ∈ Schema.users db')
  /\ (forall r k, r ∈ Schema.analysis_results db' -> Schema.ar_document_id r = Some k ->
        k ∈ Schema.document_ids db')
  /\ (forall r k, r ∈ Schema.clauses db' -> Schema.cl_document_id r = Some k ->
        k ∈ Schema.document_ids db')
  /\ Schema.users db' = filter (fun u => u <> user) (Schema.users db)
  /\ Schema.documents db'
     = filter (fun d => Schema.doc_user_id d <> Some user) (Schema.documents db)
  /\ (forall r, r ∈ Schema.analysis_results db'
                <-> r ∈ Schema.analysis_results db
                    /\ forall d, d ∈ Schema.documents db ->
                          Schema.doc_user_id d = Some user ->
                          Schema.ar_document_id r <> Some (Schema.doc_id d))
  /\ (forall r, r ∈ Schema.clauses db'
                <-> r ∈ Schema.clauses db
                    /\ forall d, d ∈ Schema.documents db ->
                          Schema.doc_user_id d = Some user ->
                          Schema.cl_document_id r <> Some (Schema.doc_id d)).
Proof.
  intros db db'.
  destruct (ConstraintFacts.run_constraints script) as (_ & _ & U). fold db in U.
  pose proof (ConstraintFacts.exec_user_references (Schema.DeleteUser user) db U) as U'.
  pose proof (SchemaFacts.delete_user_integrity user db (SchemaFacts.run_integrity script))
    as [RA RC].
  split; [exact U|].
  split; [|split; [|split; [|split; [exact U'|split; [exact RA|split; [exact RC|]]]]]].
  - unfold db', Schema.delete_user. cbn [Schema.users]. intros H.
    apply list_elem_of_filter in H as [H _]. congruence.
  - intros d Hd. unfold db', Schema.delete_user in Hd. cbn [Schema.documents] in Hd.
    apply SchemaFacts.delete_documents_documents in Hd as [Hp _].
    exact (bool_decide_eq_false_1 _ Hp).
  - intros d Hd Hne. unfold db', Schema.delete_user. cbn [Schema.documents].
    apply SchemaFacts.delete_documents_documents.
    split; [apply bool_decide_eq_false_2; exact Hne|exact Hd].
  - split; [reflexivity|]. split; [|split].
    + unfold db', Schema.delete_user, Schema.delete_documents. cbn [Schema.documents].
      apply CascadeFacts.filter_agree. intros d _. rewrite bool_decide_eq_false. reflexivity.
    + intros r. unfold db', Schema.delete_user. cbn [Schema.analysis_results].
      rewrite CascadeFacts.analysis_results_left. split; intros [Hr H]; (split; [exact Hr|]).
      * intros d Hd E. apply (H d Hd). apply bool_decide_eq_true_2, E.
      * intros d Hd E. apply (H d Hd). exact (bool_decide_eq_true_1 _ E).
    + intros r. unfold db', Schema.delete_user. cbn [Schema.clauses].
      rewrite CascadeFacts.clauses_left. split; intros [Hr H]; (split; [exact Hr|]).
      * intros d Hd E. apply (H d Hd). apply bool_decide_eq_true_2, E.
      * intros d Hd E. apply (H d Hd). exact (bool_decide_eq_true_1 _ E).
Qed.

(** X17.  [document_id] may be null, and a row without a document stays:
    no removal of documents or of a user, whatever it cascades to, removes
    an analysis result or a clause whose [document_id] is null. *)
Theorem rows_without_a_document_survive (db : Schema.Database) :
  (forall r, r ∈ Schema.analysis_results db -> Schema.ar_document_id r = None ->
     (forall P, r ∈ Schema.analysis_results (Schema.delete_documents P db))
     /\ (forall id, r ∈ Schema.analysis_results (Schema.delete_document id db))
     /\ (forall user, r ∈ Schema.analysis_results (Schema.delete_user user db)))
  /\ (forall r, r ∈ Schema.clauses db -> Schema.cl_document_id r = None ->
        (forall P, r ∈ Schema.clauses (Schema.delete_documents P db))
        /\ (forall id, r ∈ Schema.clauses (Schema.delete_document id db))
        /\ (forall user, r ∈ Schema.clauses (Schema.delete_user user db))).
Proof.
  split.
  - intros r Hr N.
    assert (A : forall P, r ∈ Schema.analysis_results (Schema.delete_documents P db)).
    { intros P. apply SchemaFacts.delete_documents_analysis_results.
      split; [intros k Hk; congruence|exact Hr]. }
    split; [exact A|]. split; [intros id; apply A|intros user; apply A].
  - intros r Hr N.
    assert (A : forall P, r ∈ Schema.clauses (Schema.delete_documents P db)).
    { intros P. apply SchemaFacts.delete_documents_clauses.
      split; [intros k Hk; congruence|exact Hr]. }
    split; [exact A|]. split; [intros id; apply A|intros user; apply A].
Qed.

(** X18.  An insert that breaks a constraint changes nothing: an id that is
    already taken, a [document_id] or [user_id] that names no row, a type or
    level outside the allowed values. *)
Theorem refused_inserts_change_nothing (db : Schema.Database) :
  (forall row,
     Schema.doc_id row ∈ Schema.document_ids db
     \/ (exists k, Schema.doc_user_id row = Some k /\ k ∉ Schema.users db)
     \/ Schema.doc_type_check (Schema.doc_type row) = false ->
     Schema.insert_document row db = db)
  /\ (forall row,
        Schema.ar_id row ∈ Schema.ar_id <$> Schema.analysis_results db
        \/ (exists k, Schema.ar_document_id row = Some k /\ k ∉ Schema.document_ids db)
        \/ Schema.analysis_type_check (Schema.ar_analysis_type row) = false
        \/ Schema.risk_level_check (Schema.ar_risk_level row) = false ->
        Schema.insert_analysis_result row db = db)
  /\ (forall row,
        Schema.cl_id row ∈ Schema.cl_id <$> Schema.clauses db
        \/ (exists k, Schema.cl_document_id row = Some k /\ k ∉ Schema.document_ids db) ->
        Schema.insert_clause row db = db).
Proof.
  assert (R : forall fk keys k, fk = Some k -> k ∉ keys -> Schema.references fk keys = false).
  { intros fk keys k -> N. simpl. apply bool_decide_eq_false_2, N. }
  assert (D : forall (x : Schema.uuid) (l : list Schema.uuid),
            x ∈ l -> bool_decide (x ∉ l) = false).
  { intros x l H. apply bool_decide_eq_false_2. tauto. }
  assert (Z : forall a b c : bool, a && (b && false && c) = false)
    by (intros [] [] []; reflexivity).
  split; [|split]; intros row H.
  - unfold Schema.insert_document.
    destruct H as [H|[(k & E & N)|H]].
    + rewrite (D _ _ H), andb_false_r. reflexivity.
    + rewrite (R _ _ k E N), Z. reflexivity.
    + rewrite H, !andb_false_r. reflexivity.
  - unfold Schema.insert_analysis_result.
    destruct H as [H|[(k & E & N)|[H|H]]].
    + rewrite (D _ _ H), andb_false_r. reflexivity.
    + rewrite (R _ _ k E N). replace (_ && _) with false; [reflexivity|].
      symmetry. destruct (Schema.is_analysis_results_row row), (bool_decide _); reflexivity.
    + rewrite H, Z. reflexivity.
    + rewrite H, !andb_false_r. reflexivity.
  - unfold Schema.insert_clause.
    destruct H as [H|(k & E & N)].
    + rewrite (D _ _ H), andb_false_r. reflexivity.
    + rewrite (R _ _ k E N), !andb_false_r. reflexivity.
Qed.

(** X19.  Deleting is idempotent, and deleting what is not there is no
    change: a second delete with the same condition changes nothing, and so
    does the delete of a document id that no document has. *)
Theorem deleting_twice_is_deleting_once (db : Schema.Database) :
  (forall P, Schema.delete_documents P (Schema.delete_documents P db)
             = Schema.delete_documents P db)
  /\ (forall id, Schema.delete_document id (Schema.delete_document id db)
                 = Schema.delete_document id db)
  /\ (forall id, id ∉ Schema.document_ids db -> Schema.delete_document id db = db).
Proof.
  assert (A : forall P, Schema.delete_documents P (Schema.delete_documents P db)
                        = Schema.delete_documents P db).
  { intros P. apply DeleteFacts.delete_documents_noop. intros d Hd.
    apply SchemaFacts.delete_documents_documents in Hd as [Hp _]. exact Hp. }
  split; [exact A|]. split; [intros id; apply A|].
  intros id N. apply DeleteFacts.delete_documents_noop. intros d Hd.
  apply bool_decide_eq_false_2. intros E. apply N. unfold Schema.document_ids.
  apply list_elem_of_fmap. exists d. auto.
Qed.

(** X20.  Inserting a document under a fresh id and deleting that id again
    gives back the database as it was, whether the insert was accepted or
    refused. *)
Theorem insert_then_delete_document (script : list Schema.Statement)
    (row : Schema.documents_row) :
  let db := Schema.run script in
  Schema.doc_id row ∉ Schema.document_ids db ->
  Schema.delete_document (Schema.doc_id row) (Schema.insert_document row db) = db.
Proof.
  intros db F.
  destruct (SchemaFacts.run_integrity script) as [RA RC]. fold db in RA, RC.
  assert (Hdocs : forall d, d ∈ Schema.documents db -> Schema.doc_id d <> Schema.doc_id row).
  { intros d Hd E. apply F. unfold Schema.document_ids. apply list_elem_of_fmap.
    exists d. auto. }
  unfold Schema.insert_document. destruct (_ && _).
  - unfold Schema.delete_document, Schema.delete_documents.
    cbn [Schema.users Schema.documents Schema.analysis_results Schema.clauses].
    rewrite !filter_app.
    rewrite (DeleteFacts.filter_none (fun d => bool_decide (Schema.doc_id d = Schema.doc_id row) = true))
      by (intros d Hd; rewrite (bool_decide_eq_false_2 _ (Hdocs d Hd)); discriminate).
    rewrite (ConstraintFacts.filter_all
               (fun d => bool_decide (Schema.doc_id d = Schema.doc_id row) = false))
      by (intros d Hd; apply bool_decide_eq_false_2, Hdocs, Hd).
    rewrite (filter_cons_True (fun d => bool_decide (Schema.doc_id d = Schema.doc_id row) = true))
      by (apply bool_decide_eq_true_2; reflexivity).
    rewrite (filter_cons_False (fun d => bool_decide (Schema.doc_id d = Schema.doc_id row) = false))
      by (rewrite bool_decide_eq_true_2 by reflexivity; discriminate).
    rewrite !filter_nil, app_nil_r. cbn [fmap list_fmap app].
    rewrite !ConstraintFacts.filter_all; [apply DeleteFacts.database_eta| |].
    + intros r Hr. apply SchemaFacts.points_into_false. intros k Hk Hin.
      apply list_elem_of_singleton in Hin. subst k. exact (F (RC r _ Hr Hk)).
    + intros r Hr. apply SchemaFacts.points_into_false. intros k Hk Hin.
      apply list_elem_of_singleton in Hin. subst k. exact (F (RA r _ Hr Hk)).
  - apply DeleteFacts.delete_documents_noop. intros d Hd.
    apply bool_decide_eq_false_2, Hdocs, Hd.
Qed.

Lemma insert_then_delete_document_witness :
  Schema.delete_document 12%N
    (Schema.insert_document (Examples.example_document_row 12%N)
       (Schema.run Examples.example_script))
  = Schema.run Examples.example_script.
Proof.
  apply (insert_then_delete_document Examples.example_script
           (Examples.example_document_row 12%N)).
  apply (bool_decide_unpack _). vm_compute. exact I.
Defined.

Module BannerFacts.
Import Console Interaction.

Section WithNetwork.

Variable BASE_URL : str.
Variable net : Client.Network.

(** One event either leaves [loading] and the error as they were, or clears
    the error, or ends with [loading] false. *)
Lemma step_loading_error (s : Session) (e : Event) :
  let s' := step BASE_URL net s e in
  (Store.loading (store (page s')) = Store.loading (store (page s))
   /\ error (page s') = error (page s))
  \/ error (page s') = None
  \/ Store.loading (store (page s')) = false.
Proof.
  destruct e as [t|n|d|n| | | |]; cbn [step].
  - left. split; reflexivity.
  - destruct (on_tab tab_analyze s), (LANGUAGES !! n); left; split; reflexivity.
  - destruct (on_tab tab_analyze s); left; split; reflexivity.
  - destruct (on_tab tab_compile s); [|left; split; reflexivity].
    destruct n as [n|]; [destruct (TEMPLATES !! n)|]; left; split; reflexivity.
  - destruct (_ && _); [|left; split; reflexivity].
    unfold handleAnalyze_before_await. destruct (negb _); [left; split; reflexivity|].
    right. left. reflexivity.
  - destruct (_ && _); [|left; split; reflexivity].
    unfold handleRiskScore_before_await. destruct (negb _); [left; split; reflexivity|].
    right. left. reflexivity.
  - destruct (_ && _); [|left; split; reflexivity].
    unfold handleCompile_before_await. destruct (negb _); [left; split; reflexivity|].
    right. left. reflexivity.
  - destruct (in_flight s) as [|[k outcome] rest]; [left; split; reflexivity|].
    right. right. unfold after_await. destruct outcome; reflexivity.
Qed.

Lemma run_loading_error (events : list Event) :
  Store.loading (store (page (run BASE_URL net events))) = true ->
  error (page (run BASE_URL net events)) = None.
Proof.
  unfold run.
  assert (I : Store.loading (store (page initial)) = true -> error (page initial) = None)
    by reflexivity.
  revert I. generalize initial.
  induction events as [|e events IH]; intros s I; [exact I|].
  simpl. apply IH. intros L.
  destruct (step_loading_error s e) as [[E1 E2]|[E|E]].
  - rewrite E2. apply I. rewrite <- E1. exact L.
  - exact E.
  - congruence.
Qed.

End WithNetwork.

End BannerFacts.

(** X21.  While a request is out the page shows no error: starting a
    request clears the error of the one before, and nothing sets one until
    the request settles. *)
Theorem no_error_while_loading
  (BASE_URL : str) (net : Client.Network) (events : list Interaction.Event) :
  let p := Interaction.page (Interaction.run BASE_URL net events) in
  Store.loading (Console.store p) = true ->
  Console.error p = None /\ View.error_banner p = None.
Proof.
  intros p L. pose proof (BannerFacts.run_loading_error BASE_URL net events L) as E.
  fold p in E. unfold View.error_banner. rewrite E. split; reflexivity.
Qed.

(** A request that failed, then a new click: the banner of the failure is
    gone while the new request is out. *)
Lemma no_error_while_loading_witness :
  Console.error
    (Interaction.page
       (Interaction.run [] Examples.example_network
          [Interaction.ChangeDocument Examples.example_document; Interaction.ClickAnalyze;
           Interaction.Settle; Interaction.ClickRiskScore]))
  = None.
Proof.
  exact (proj1 (no_error_while_loading [] Examples.example_network
                  [Interaction.ChangeDocument Examples.example_document;
                   Interaction.ClickAnalyze; Interaction.Settle; Interaction.ClickRiskScore]
                  eq_refl)).
Defined.

Example session_on_the_example_network :
  let s := Interaction.run [] Examples.example_network
             [Interaction.ChangeDocument Examples.example_document; Interaction.ClickAnalyze;
              Interaction.ClickRiskScore; Interaction.Settle; Interaction.ClickTab Console.tab_compile;
              Interaction.ChangeTemplate (Some 1); Interaction.ClickCompile] in
  length (Interaction.calls s) = 2
  /\ Client.url <$> Interaction.calls s
     = [js "/api/v1/legal/analyze"; js "/api/v1/legal/compile"]
  /\ Store.templateId (Console.store (Interaction.page s)) = js "sla"
  /\ Store.loading (Console.store (Interaction.page s)) = true
  /\ length (Interaction.in_flight s) = 1.
Proof. repeat split. Qed.
